(** * books-app: the catalog clients, the error classifier and the
    debounced search controller

    A shallow embedding of [src/app/search.tsx] (the Search screen),
    of the Detail screen (the file that exports [fetchBookById]), of
    [src/components/book-card.tsx] and of [src/types/book.ts], followed
    by the properties of the specification that are settled against
    them and by further properties of the code.

    Conventions.  A JavaScript string is a [string] whose characters
    are code units below 256.  A value that the code [throw]s or that
    a promise rejects with is a [Thrown]; code that may throw lives in
    the error monad [Exc] and a [try]/[catch] block is [catch].  An
    [async] function whose awaited promises are answered by the
    environment is a function of those answers. *)

From Stdlib Require Import String Ascii List Arith Bool Lia.
From Stdlib Require Import Numbers.DecimalString.
From Stdlib Require Import ZArith QArith Qround.
From ExtLib Require Import Structures.Monad Structures.MonadExc.
From ExtLib Require Import Data.Monads.EitherMonad.
Import ListNotations.
Import MonadNotation.
Close Scope Q_scope.
Local Open Scope monad_scope.
Local Open Scope string_scope.
Local Open Scope bool_scope.
Set Warnings "-register-all".

(* ===================================================================== *)
(** ** The platform: strings, values, exceptions, responses              *)
(* ===================================================================== *)

Module Js.

(** [String.prototype.startsWith]. *)
Definition startsWith (s searchString : string) : bool :=
  String.prefix searchString s.

(** [String.prototype.includes]: [searchString] occurs somewhere in [s]. *)
Fixpoint includes (s searchString : string) : bool :=
  String.prefix searchString s
  || match s with
     | EmptyString => false
     | String _ rest => includes rest searchString
     end.

(** Drop the first [n] code units. *)
Fixpoint skip (n : nat) (s : string) : string :=
  match n, s with
  | O, _ => s
  | S _, EmptyString => EmptyString
  | S m, String _ rest => skip m rest
  end.

(** [String.prototype.replace] with a string pattern: only the first
    occurrence is replaced.  (The replacement strings of the program
    hold no [$], so no replacement pattern is interpreted.) *)
Fixpoint replace (s pattern replacement : string) : string :=
  if String.prefix pattern s
  then replacement ++ skip (String.length pattern) s
  else match s with
       | EmptyString => EmptyString
       | String c rest => String c (replace rest pattern replacement)
       end.

(** White space and line terminators among the code units below 256:
    TAB, LF, VT, FF, CR, SP and NBSP. *)
Definition isWhiteSpace (c : ascii) : bool :=
  let n := nat_of_ascii c in
  Nat.eqb n 9 || Nat.eqb n 10 || Nat.eqb n 11 || Nat.eqb n 12
  || Nat.eqb n 13 || Nat.eqb n 32 || Nat.eqb n 160.

Fixpoint trimStart (s : string) : string :=
  match s with
  | EmptyString => EmptyString
  | String c rest => if isWhiteSpace c then trimStart rest else s
  end.

Fixpoint trimEnd (s : string) : string :=
  match s with
  | EmptyString => EmptyString
  | String c rest =>
      match trimEnd rest with
      | EmptyString => if isWhiteSpace c then EmptyString
                       else String c EmptyString
      | kept => String c kept
      end
  end.

(** [String.prototype.trim]. *)
Definition trim (s : string) : string := trimEnd (trimStart s).

(** Truthiness of a string: only the empty string is falsy. *)
Definition truthy (s : string) : bool :=
  match s with EmptyString => false | String _ _ => true end.

(** Truthiness of [string | undefined]. *)
Definition truthyOpt (o : option string) : bool :=
  match o with None => false | Some s => truthy s end.

(** The template literal [`${n}`] of a non-negative integer. *)
Definition numberToString (n : nat) : string :=
  NilEmpty.string_of_uint (Nat.to_uint n).

(** Run-time values: what [res.json()] resolves with, and what a
    property read gives. *)
Inductive Value : Type :=
| VUndefined
| VNull
| VBool (b : bool)
| VNumber (n : nat)
| VString (s : string)
| VArray (items : list Value)
| VObject (fields : list (string * Value)).

(** The constructor a thrown [Error] object was made with. *)
Inductive ErrorClass : Type :=
| ClsError | ClsTypeError | ClsSyntaxError | ClsURIError.

(** What a [catch (e)] clause can receive: an [Error] object of some
    class with its [message], or any other value. *)
Inductive Thrown : Type :=
| ErrorObject (cls : ErrorClass) (message : string)
| NotAnError (v : Value).

(** [e instanceof TypeError]. *)
Definition instanceofTypeError (e : Thrown) : bool :=
  match e with
  | ErrorObject ClsTypeError _ => true
  | _ => false
  end.

(** [e instanceof Error]: every error class derives from [Error]. *)
Definition instanceofError (e : Thrown) : bool :=
  match e with
  | ErrorObject _ _ => true
  | NotAnError _ => false
  end.

Definition messageOf (e : Thrown) : string :=
  match e with
  | ErrorObject _ m => m
  | NotAnError _ => EmptyString
  end.

(** Computations that may throw. *)
Definition Exc : Type -> Type := sum Thrown.

Definition throw {A : Type} (e : Thrown) : Exc A := raise e.

(** [new Error(message)] thrown. *)
Definition newError (message : string) : Thrown :=
  ErrorObject ClsError message.

(** Lookup of an own property of an object literal. *)
Fixpoint lookupField (fields : list (string * Value)) (name : string)
  : Value :=
  match fields with
  | [] => VUndefined
  | (k, v) :: rest => if String.eqb k name then v
                      else lookupField rest name
  end.

(** The member read [v.name] for a [name] that is no built-in property
    (the program only reads [items]).  It throws a [TypeError] on [null]
    and [undefined]; a primitive or an array has no such property. *)
Definition getMember (v : Value) (name : string) : Exc Value :=
  match v with
  | VNull =>
      throw (ErrorObject ClsTypeError
               ("Cannot read properties of null (reading '" ++ name ++ "')"))
  | VUndefined =>
      throw (ErrorObject ClsTypeError
               ("Cannot read properties of undefined (reading '"
                  ++ name ++ "')"))
  | VObject fields => ret (lookupField fields name)
  | _ => ret VUndefined
  end.

(** The nullish coalescing [v ?? d]. *)
Definition coalesce (v d : Value) : Value :=
  match v with
  | VUndefined | VNull => d
  | _ => v
  end.

(** A [Response]: the [ok] flag (true for the statuses 200 to 299),
    the status, and what [res.json()] settles with. *)
Record Response : Type := mkResponse {
  ok : bool;
  status : nat;
  json : Exc Value
}.

(** What [await fetch(url)] gives: a rejection (the transport failed)
    or a response. *)
Definition FetchOutcome : Type := Exc Response.

(** Truthiness of a value, as [v ? a : b] tests it. *)
Definition truthyValue (v : Value) : bool :=
  match v with
  | VUndefined | VNull => false
  | VBool b => b
  | VNumber n => negb (Nat.eqb n 0)
  | VString s => truthy s
  | VArray _ | VObject _ => true
  end.

(** [URLSearchParams]: an ordered list of name/value pairs. *)
Definition URLSearchParams : Type := list (string * string).

(** The request handed to [fetch]: the part of the URL before [?] and
    the parameters that [params.toString()] serialises after it. *)
Record Request : Type := mkRequest {
  endpoint : string;
  searchParams : URLSearchParams
}.

Fixpoint paramsGet (p : URLSearchParams) (name : string) : option string :=
  match p with
  | [] => None
  | (k, v) :: rest => if String.eqb k name then Some v
                      else paramsGet rest name
  end.

End Js.

(* ===================================================================== *)
(** ** src/types/book.ts                                                 *)
(* ===================================================================== *)

Module Types.

Record BookImageLinks : Type := mkBookImageLinks {
  thumbnail : option string;
  smallThumbnail : option string;
  small : option string;
  medium : option string;
  large : option string
}.

(** [averageRating] (a floating-point number that only the star row
    reads) is left out. *)
Record BookVolumeInfo : Type := mkBookVolumeInfo {
  title : string;
  authors : option (list string);
  description : option string;
  imageLinks : option BookImageLinks
}.

Record Book : Type := mkBook {
  id : string;
  volumeInfo : BookVolumeInfo
}.

Record BookDetailParams : Type := mkBookDetailParams {
  p_id : option string;
  p_title : option string;
  p_authors : option string;
  p_thumbnail : option string;
  p_rating : option string;
  p_description : option string
}.

End Types.

(* ===================================================================== *)
(** ** src/app/search.tsx                                                *)
(* ===================================================================== *)

Module Search.
Import Js.

Definition BOOKS_API_BASE : string :=
  "https://www.googleapis.com/books/v1/volumes".

Definition getApiErrorMessage (error : Thrown) : string :=
  if instanceofTypeError error && includes (messageOf error) "fetch" then
    "Unable to connect. Check your internet connection and try again."
  else if instanceofError error then
    if startsWith (messageOf error) "API error: 429" then
      "Too many requests. Please try again in a moment."
    else if startsWith (messageOf error) "API error: 5" then
      "Something went wrong on our end. Please try again later."
    else if startsWith (messageOf error) "API error: 4" then
      "Request failed. Please check your connection and try again."
    else "Something went wrong. Please try again."
  else "Something went wrong. Please try again.".

(** The spread [...(BOOKS_API_KEY && { key: BOOKS_API_KEY })]: an
    undefined or empty key adds nothing. *)
Definition keyParam (BOOKS_API_KEY : option string) : URLSearchParams :=
  match BOOKS_API_KEY with
  | Some k => if truthy k then [("key", k)] else []
  | None => []
  end.

(** [if (!res.ok) throw new Error(`API error: ${res.status}`)]. *)
Definition checkOk (res : Response) : Exc unit :=
  if negb (ok res)
  then throw (newError ("API error: " ++ numberToString (status res)))
  else ret tt.

(** The lines from [await fetch(url)] to [data.items ?? []], shared by
    [fetchPopularBooks] and [fetchBooks]. *)
Definition readItems (answer : FetchOutcome) : Exc Value :=
  res <- answer ;;
  checkOk res ;;
  data <- json res ;;
  items <- getMember data "items" ;;
  ret (coalesce items (VArray [])).

Record PopularResult : Type := mkPopularResult {
  data : Value;
  error : option string
}.

Section Clients.
(** [process.env.EXPO_PUBLIC_GOOGLE_BOOKS_API_KEY]. *)
Variable BOOKS_API_KEY : option string.
(** The network: what [fetch] settles with for each request. *)
Variable fetch : Request -> FetchOutcome.

Definition popularRequest : Request :=
  {| endpoint := BOOKS_API_BASE;
     searchParams := ([("q", "subject:fiction");
                       ("orderBy", "relevance");
                       ("maxResults", "15")]
                        ++ keyParam BOOKS_API_KEY)%list |}.

(** The result is in [Exc] so that "does not throw" is a statement
    about the function and not about its type. *)
Definition fetchPopularBooks : Exc PopularResult :=
  catch
    (items <- readItems (fetch popularRequest) ;;
     ret {| data := items; error := None |})
    (fun e =>
       (* console.error('Failed to fetch popular books:', e) *)
       ret {| data := VArray []; error := Some (getApiErrorMessage e) |}).

(** The request that [fetchBooks(q)] builds. *)
Definition searchRequest (q : string) : Request :=
  {| endpoint := BOOKS_API_BASE;
     searchParams := ([("q", trim q); ("maxResults", "20")]
                        ++ keyParam BOOKS_API_KEY)%list |}.
End Clients.

(** *** BookRow: the cover URL *)

(** [o?.replace('http://', 'https://')] on [string | undefined]. *)
Definition upgradeScheme (o : option string) : option string :=
  option_map (fun s => replace s "http://" "https://") o.

(** [a || b] on [string | undefined]. *)
Definition orElse (a b : option string) : option string :=
  if truthyOpt a then a else b.

(** [links?.field]. *)
Definition linkOf (links : option Types.BookImageLinks)
           (field : Types.BookImageLinks -> option string) : option string :=
  match links with
  | None => None
  | Some l => field l
  end.

(** The constant [thumbnail] of [BookRow]. *)
Definition rowThumbnail (book : Types.Book) : option string :=
  let volumeInfo := Types.volumeInfo book in
  orElse
    (upgradeScheme (linkOf (Types.imageLinks volumeInfo) Types.thumbnail))
    (upgradeScheme (linkOf (Types.imageLinks volumeInfo)
                           Types.smallThumbnail)).

(** What [BookRow] renders as cover: the [Image] with its [uri], or
    the placeholder icon. *)
Inductive Cover : Type :=
| CoverImage (uri : string)
| CoverPlaceholder.

Definition rowCover (book : Types.Book) : Cover :=
  match rowThumbnail book with
  | Some uri => if truthy uri then CoverImage uri else CoverPlaceholder
  | None => CoverPlaceholder
  end.

End Search.

(* ===================================================================== *)
(** ** src/app/search.tsx: the component [SearchScreen]                  *)
(* ===================================================================== *)

(** The component as a machine.  Its state is the [useState] cells plus
    what the run time holds for it: the pending debounce timeout, the
    [cancelled] flag of the mount effect, the clock, and the search calls
    issued so far.  Its events are the callbacks the run time invokes. *)
Module SearchScreen.
Import Js Search.

(** The [useState] cells.  ([inputRef] and its focus timeout touch none
    of them and are left out.) *)
Record Hooks : Type := mkHooks {
  query : string;
  books : Value;
  popularBooks : Value;
  loading : bool;
  loadingPopular : bool;
  errorPopular : option string;
  errorSearch : option string
}.

Definition setQuery (v : string) (h : Hooks) : Hooks :=
  mkHooks v (books h) (popularBooks h) (loading h) (loadingPopular h)
          (errorPopular h) (errorSearch h).
Definition setBooks (v : Value) (h : Hooks) : Hooks :=
  mkHooks (query h) v (popularBooks h) (loading h) (loadingPopular h)
          (errorPopular h) (errorSearch h).
Definition setPopularBooks (v : Value) (h : Hooks) : Hooks :=
  mkHooks (query h) (books h) v (loading h) (loadingPopular h)
          (errorPopular h) (errorSearch h).
Definition setLoading (v : bool) (h : Hooks) : Hooks :=
  mkHooks (query h) (books h) (popularBooks h) v (loadingPopular h)
          (errorPopular h) (errorSearch h).
Definition setLoadingPopular (v : bool) (h : Hooks) : Hooks :=
  mkHooks (query h) (books h) (popularBooks h) (loading h) v
          (errorPopular h) (errorSearch h).
Definition setErrorPopular (v : option string) (h : Hooks) : Hooks :=
  mkHooks (query h) (books h) (popularBooks h) (loading h)
          (loadingPopular h) v (errorSearch h).
Definition setErrorSearch (v : option string) (h : Hooks) : Hooks :=
  mkHooks (query h) (books h) (popularBooks h) (loading h)
          (loadingPopular h) (errorPopular h) v.

(** One invocation of [fetchBooks]: when, with which argument, and the
    request it handed to [fetch]. *)
Record Call : Type := mkCall {
  issuedAt : nat;
  arg : string;
  request : Request
}.

Record State : Type := mkState {
  hooks : Hooks;
  mounted : bool;
  (** the pending [setTimeout(() => fetchBooks(query), 400)]: the time
      it is due and the [query] its closure captured *)
  timer : option (nat * string);
  (** [let cancelled] of the effect that loads the popular books *)
  cancelled : bool;
  now : nat;
  (** the invocations of [fetchBooks], oldest first *)
  calls : list Call;
  (** indices in [calls] of those whose [fetch] has not settled *)
  pending : list nat
}.

(** A state setter called from a callback: React drops the update of a
    component that is no longer mounted. *)
Definition set (f : Hooks -> Hooks) (s : State) : State :=
  if mounted s
  then mkState (f (hooks s)) (mounted s) (timer s) (cancelled s) (now s)
               (calls s) (pending s)
  else s.

Definition setTimer (t : option (nat * string)) (s : State) : State :=
  mkState (hooks s) (mounted s) t (cancelled s) (now s) (calls s)
          (pending s).

Definition setNow (t : nat) (s : State) : State :=
  mkState (hooks s) (mounted s) (timer s) (cancelled s) t (calls s)
          (pending s).

(** The state once the component is mounted at time [t0] and its mount
    effects have run: the popular books are being loaded, and the
    debounce effect saw the empty [query]. *)
Definition mount (t0 : nat) : State :=
  {| hooks := {| query := ""; books := VArray []; popularBooks := VArray [];
                 loading := false; loadingPopular := true;
                 errorPopular := None; errorSearch := None |};
     mounted := true; timer := None; cancelled := false; now := t0;
     calls := []; pending := [] |}.

Section Controller.
Variable BOOKS_API_KEY : option string.

(** [fetchBooks(q)] up to its [await fetch(url)]. *)
Definition fetchBooks (q : string) (s : State) : State :=
  let s1 := set (setErrorSearch None) s in
  let s2 := set (setLoading true) s1 in
  mkState (hooks s2) (mounted s2) (timer s2) (cancelled s2) (now s2)
          (calls s2 ++ [mkCall (now s2) q (searchRequest BOOKS_API_KEY q)])
          (pending s2 ++ [List.length (calls s2)]).

(** [fetchBooks] from the point where the [fetch] of call [id] settles
    with [answer]: the rest of the [try], the [catch], the [finally]. *)
Definition fetchBooksSettled (id : nat) (answer : FetchOutcome)
           (s : State) : State :=
  if negb (existsb (Nat.eqb id) (pending s)) then s
  else
    let s1 := mkState (hooks s) (mounted s) (timer s) (cancelled s)
                      (now s) (calls s)
                      (filter (fun i => negb (Nat.eqb id i)) (pending s)) in
    let s2 :=
      match readItems answer with
      | inr items => set (setBooks items) s1
      | inl e =>
          (* console.error('Search failed:', e) *)
          set (setErrorSearch (Some (getApiErrorMessage e)))
              (set (setBooks (VArray [])) s1)
      end in
    set (setLoading false) s2.

(** The debounce effect, re-run because [query] changed to [text]:
    first the cleanup of the previous run, then the body. *)
Definition debounceEffect (text : string) (s : State) : State :=
  let s1 := setTimer None s in
  if negb (truthy (trim text)) then set (setBooks (VArray [])) s1
  else setTimer (Some (now s1 + 400, text)) s1.

(** [onChangeText={setQuery}] (and the clear button, with [text] empty).
    Setting the value the cell already holds re-runs no effect. *)
Definition changeText (text : string) (s : State) : State :=
  if negb (mounted s) then s
  else if String.eqb text (query (hooks s)) then s
  else debounceEffect text (set (setQuery text) s).

(** [dt] time units pass.  A timeout that falls due runs its callback
    at the time it is due. *)
Definition elapse (dt : nat) (s : State) : State :=
  let t := now s + dt in
  match timer s with
  | Some (due, q) =>
      if Nat.leb due t
      then setNow t (fetchBooks q (setNow due (setTimer None s)))
      else setNow t s
  | None => setNow t s
  end.

Definition isEmptyList (v : Value) : bool :=
  match v with VArray [] => true | _ => false end.

(** The "Try again" button of the search list.  It is rendered only in
    the empty list of a non-blank query, with an error and no load. *)
Definition pressRetry (s : State) : State :=
  let h := hooks s in
  if mounted s && negb (loading h) && truthy (trim (query h))
     && isEmptyList (books h) && truthyOpt (errorSearch h)
  then fetchBooks (query h) s
  else s.

(** The promise of the mount effect's [fetchPopularBooks()] settles:
    its [then] callback (skipped on a rejection) and its [finally]. *)
Definition popularSettled (r : Exc PopularResult) (s : State) : State :=
  let s1 :=
    match r with
    | inr res =>
        if negb (cancelled s)
        then set (setErrorPopular (error res))
                 (set (setPopularBooks (data res)) s)
        else s
    | inl _ => s
    end in
  if negb (cancelled s1) then set (setLoadingPopular false) s1 else s1.

(** Unmount: the cleanups of the effects run. *)
Definition unmount (s : State) : State :=
  mkState (hooks s) false None true (now s) (calls s) (pending s).

Inductive Event : Type :=
| ChangeText (text : string)
| Elapse (dt : nat)
| SearchSettled (id : nat) (answer : FetchOutcome)
| PopularSettled (r : Exc PopularResult)
| PressRetry
| Unmount.

Definition step (s : State) (e : Event) : State :=
  match e with
  | ChangeText text => changeText text s
  | Elapse dt => elapse dt s
  | SearchSettled id answer => fetchBooksSettled id answer s
  | PopularSettled r => popularSettled r s
  | PressRetry => pressRetry s
  | Unmount => unmount s
  end.

Definition run (es : list Event) (s : State) : State :=
  fold_left step es s.

(** A typing session: each keystroke comes [gap] time units after the
    event before it and leaves [text] in the input. *)
Definition Keystroke : Type := (nat * string)%type.

Definition typing (ks : list Keystroke) : list Event :=
  flat_map (fun k => [Elapse (fst k); ChangeText (snd k)]) ks.

End Controller.

End SearchScreen.

(* ===================================================================== *)
(** ** The Detail screen: [fetchBookById] and [BookDetailScreen]         *)
(* ===================================================================== *)

Module BookDetail.
Import Js.

Definition BOOKS_API_BASE : string :=
  "https://www.googleapis.com/books/v1/volumes".

Definition getApiErrorMessage (error : Thrown) : string :=
  if instanceofTypeError error && includes (messageOf error) "fetch" then
    "Unable to connect. Check your internet connection and try again."
  else if instanceofError error then
    if startsWith (messageOf error) "API error: 429" then
      "Too many requests. Please try again in a moment."
    else if startsWith (messageOf error) "API error: 5" then
      "Something went wrong on our end. Please try again later."
    else if startsWith (messageOf error) "API error: 4" then
      "Book could not be loaded. Please try again."
    else "Something went wrong. Please try again."
  else "Something went wrong. Please try again.".

(** *** [encodeURIComponent] on code units below 256 *)

Definition hexDigit (n : nat) : ascii :=
  ascii_of_nat (if Nat.ltb n 10 then 48 + n else 55 + n).

Definition percent (byte : nat) : string :=
  String "%" (String (hexDigit (byte / 16))
                     (String (hexDigit (byte mod 16)) EmptyString)).

Definition between (lo hi n : nat) : bool :=
  Nat.leb lo n && Nat.leb n hi.

(** Letters, digits and [- _ . ! ~ * ' ( )] stay as they are. *)
Definition unreserved (n : nat) : bool :=
  between 65 90 n || between 97 122 n || between 48 57 n
  || existsb (Nat.eqb n) [45; 95; 46; 33; 126; 42; 39; 40; 41].

(** Any other code unit becomes the escaped bytes of its UTF-8 form. *)
Definition encodeUnit (c : ascii) : string :=
  let n := nat_of_ascii c in
  if unreserved n then String c EmptyString
  else if Nat.ltb n 128 then percent n
  else percent (192 + n / 64) ++ percent (128 + n mod 64).

Fixpoint encodeURIComponent (s : string) : string :=
  match s with
  | EmptyString => EmptyString
  | String c rest => encodeUnit c ++ encodeURIComponent rest
  end.

(** [if (!res.ok) throw new Error(`API error: ${res.status}`)]. *)
Definition checkOk (res : Response) : Exc unit :=
  if negb (ok res)
  then throw (newError ("API error: " ++ numberToString (status res)))
  else ret tt.

Record LookupResult : Type := mkLookupResult {
  book : Value;
  error : option string
}.

Section Client.
(** [process.env.EXPO_PUBLIC_GOOGLE_BOOKS_API_KEY]. *)
Variable BOOKS_API_KEY : option string.
(** The network: what [fetch] settles with for each request. *)
Variable fetch : Request -> FetchOutcome.

(** [new URLSearchParams(BOOKS_API_KEY ? { key: BOOKS_API_KEY } : {})]. *)
Definition lookupParams : URLSearchParams :=
  match BOOKS_API_KEY with
  | Some k => if truthy k then [("key", k)] else []
  | None => []
  end.

Definition lookupRequest (id : string) : Request :=
  {| endpoint := BOOKS_API_BASE ++ "/" ++ encodeURIComponent id;
     searchParams := lookupParams |}.

Definition fetchBookById (id : string) : Exc LookupResult :=
  catch
    (res <- fetch (lookupRequest id) ;;
     checkOk res ;;
     book <- json res ;;
     ret {| book := book; error := None |})
    (fun e =>
       (* console.error('Failed to fetch book:', e) *)
       ret {| book := VNull; error := Some (getApiErrorMessage e) |}).
End Client.

(** *** The component [BookDetailScreen] *)

Record Hooks : Type := mkHooks {
  fetched : Value;
  loading : bool;
  fetchError : option string
}.

Definition setFetched (v : Value) (h : Hooks) : Hooks :=
  mkHooks v (loading h) (fetchError h).
Definition setLoading (v : bool) (h : Hooks) : Hooks :=
  mkHooks (fetched h) v (fetchError h).
Definition setFetchError (v : option string) (h : Hooks) : Hooks :=
  mkHooks (fetched h) (loading h) v.

Record State : Type := mkState {
  hooks : Hooks;
  mounted : bool;
  (** [let cancelled] of the effect that loads the book *)
  cancelled : bool;
  (** lookups whose promise has not settled *)
  inFlight : nat
}.

(** A state setter called from a callback: React drops the update of a
    component that is no longer mounted. *)
Definition set (f : Hooks -> Hooks) (s : State) : State :=
  if mounted s
  then mkState (f (hooks s)) (mounted s) (cancelled s) (inFlight s)
  else s.

(** [const id = params.id] is usable when it is a non-empty string. *)
Definition hasId (params : Types.BookDetailParams) : bool :=
  truthyOpt (Types.p_id params).

(** [Boolean(params.title || params.thumbnail)]. *)
Definition hasParams (params : Types.BookDetailParams) : bool :=
  truthyOpt (Types.p_title params) || truthyOpt (Types.p_thumbnail params).

(** [error ?? (book ? null : 'Book not found. ...')]. *)
Definition errorOrNotFound (book : Value) (error : option string)
  : option string :=
  match error with
  | Some e => Some e
  | None =>
      if truthyValue book then None
      else Some "Book not found. It may have been removed or the link is invalid."
  end.

(** The state once the component is mounted and its effect has run. *)
Definition mount (params : Types.BookDetailParams) : State :=
  let idle := {| hooks := mkHooks VNull false None; mounted := true;
                 cancelled := false; inFlight := 0 |} in
  if negb (hasId params) then idle
  else if hasParams params then idle
  else {| hooks := mkHooks VNull true None; mounted := true;
          cancelled := false; inFlight := 1 |}.

Definition landed (s : State) : State :=
  mkState (hooks s) (mounted s) (cancelled s) (Nat.pred (inFlight s)).

(** The promise of the effect's [fetchBookById(id)] settles: the [then]
    callback (skipped on a rejection) and the [finally], both behind
    [if (!cancelled)]. *)
Definition effectSettled (r : Exc LookupResult) (s : State) : State :=
  if Nat.eqb (inFlight s) 0 then s
  else
    let s0 := landed s in
    let s1 :=
      match r with
      | inr res =>
          if negb (cancelled s0)
          then set (setFetchError (errorOrNotFound (book res) (error res)))
                   (set (setFetched (coalesce (book res) VNull)) s0)
          else s0
      | inl _ => s0
      end in
    if negb (cancelled s1) then set (setLoading false) s1 else s1.

(** [loadBook], the "Try again" button, up to its [fetchBookById(id)]. *)
Definition loadBook (params : Types.BookDetailParams) (s : State) : State :=
  if negb (hasId params) || hasParams params then s
  else
    let s1 := set (setLoading true) (set (setFetchError None) s) in
    mkState (hooks s1) (mounted s1) (cancelled s1) (S (inFlight s1)).

(** The promise of [loadBook] settles: no flag guards its callbacks. *)
Definition loadBookSettled (r : Exc LookupResult) (s : State) : State :=
  if Nat.eqb (inFlight s) 0 then s
  else
    let s0 := landed s in
    let s1 :=
      match r with
      | inr res =>
          set (setFetchError (errorOrNotFound (book res) (error res)))
              (set (setFetched (coalesce (book res) VNull)) s0)
      | inl _ => s0
      end in
    set (setLoading false) s1.

(** Unmount: the cleanup [() => { cancelled = true; }] runs. *)
Definition unmount (s : State) : State :=
  mkState (hooks s) false true (inFlight s).

(** *** The cover URL *)

(** [a ?? b] on [string | undefined]. *)
Definition orNullish (a b : option string) : option string :=
  match a with
  | Some _ => a
  | None => b
  end.

(** [info?.imageLinks?.field] with [info = fetched?.volumeInfo]. *)
Definition infoLink (fetched : option Types.Book)
           (field : Types.BookImageLinks -> option string) : option string :=
  match fetched with
  | None => None
  | Some b =>
      match Types.imageLinks (Types.volumeInfo b) with
      | None => None
      | Some links => field links
      end
  end.

(** The constant [thumbnail] of the screen. *)
Definition thumbnail (params : Types.BookDetailParams)
           (fetched : option Types.Book) : option string :=
  orNullish
    (orNullish
       (orNullish
          (orNullish
             (orNullish (Types.p_thumbnail params)
                        (infoLink fetched Types.thumbnail))
             (infoLink fetched Types.smallThumbnail))
          (infoLink fetched Types.small))
       (infoLink fetched Types.medium))
    (infoLink fetched Types.large).

(** [thumbnail?.replace('http://', 'https://')]. *)
Definition imageUrl (params : Types.BookDetailParams)
           (fetched : option Types.Book) : option string :=
  option_map (fun s => replace s "http://" "https://")
             (thumbnail params fetched).

(** The cover that the screen renders. *)
Definition cover (params : Types.BookDetailParams)
           (fetched : option Types.Book) : Search.Cover :=
  match imageUrl params fetched with
  | Some uri => if truthy uri then Search.CoverImage uri
                else Search.CoverPlaceholder
  | None => Search.CoverPlaceholder
  end.

End BookDetail.

(* ===================================================================== *)
(** ** src/app/search.tsx: what the Search screen renders                *)
(* ===================================================================== *)

Module SearchView.
Import Js.

(** [Math.round] on a number taken as the rational it is: the nearest
    integer, a tie going up.  (A rating read from JSON is finite.) *)
Definition round (x : Q) : Z := Qfloor (x + (1 # 2))%Q.

(** [rating != null ? Math.min(5, Math.round(rating)) : 0]. *)
Definition filled (rating : option Q) : Z :=
  match rating with
  | Some r => Z.min 5 (round r)
  | None => 0%Z
  end.

(** [StarRating]: the five icons, [true] for [star] and [false] for
    [star-outline]. *)
Definition StarRating (rating : option Q) : list bool :=
  map (fun i => Z.ltb (Z.of_nat i) (filled rating)) (seq 0 5).

(** [Array.prototype.join] on an array of strings. *)
Definition join (items : list string) (separator : string) : string :=
  String.concat separator items.

(** The author line of [BookRow]:
    [volumeInfo.authors?.join(', ') ?? 'Unknown']. *)
Definition rowAuthors (book : Types.Book) : string :=
  match Types.authors (Types.volumeInfo book) with
  | Some names => join names ", "
  | None => "Unknown"
  end.

(** [navigateToBook]: the route pushed for a row. *)
Definition bookRoute (item : Types.Book) : string :=
  "/book/" ++ BookDetail.encodeURIComponent (Types.id item).

(** What the screen shows under the search bar: the component that the
    conditional selects, with the text or the list it is given.  (The
    heading of the popular list, a property of that list, is not
    modelled.) *)
Inductive Body : Type :=
| Loader
| ResultList (books : Value)
| SearchError (message : string)
| NoResults (query : string)
| PopularError (message : string)
| PopularList (books : Value).

(** The conditional of the [return] of [SearchScreen]; the empty
    [FlatList] of results shows its [ListEmptyComponent]. *)
Definition body (h : SearchScreen.Hooks) : Body :=
  if SearchScreen.loading h then Loader
  else if truthy (trim (SearchScreen.query h)) then
    if SearchScreen.isEmptyList (SearchScreen.books h) then
      match SearchScreen.errorSearch h with
      | Some message =>
          if truthy message then SearchError message
          else NoResults (SearchScreen.query h)
      | None => NoResults (SearchScreen.query h)
      end
    else ResultList (SearchScreen.books h)
  else if SearchScreen.loadingPopular h then Loader
  else
    match SearchScreen.errorPopular h with
    | Some message =>
        if truthy message then PopularError message
        else PopularList (SearchScreen.popularBooks h)
    | None => PopularList (SearchScreen.popularBooks h)
    end.

(** [loadPopularBooks], the "Try again" button of the popular list, up
    to its [fetchPopularBooks()]. *)
Definition loadPopularBooks (s : SearchScreen.State) : SearchScreen.State :=
  SearchScreen.set (SearchScreen.setLoadingPopular true)
                   (SearchScreen.set (SearchScreen.setErrorPopular None) s).

(** The promise of [loadPopularBooks] settles: no flag guards its
    callbacks. *)
Definition loadPopularSettled (r : Exc Search.PopularResult)
           (s : SearchScreen.State) : SearchScreen.State :=
  let s1 :=
    match r with
    | inr res =>
        SearchScreen.set (SearchScreen.setErrorPopular (Search.error res))
          (SearchScreen.set (SearchScreen.setPopularBooks (Search.data res)) s)
    | inl _ => s
    end in
  SearchScreen.set (SearchScreen.setLoadingPopular false) s1.

End SearchView.

(* ===================================================================== *)
(** ** The Detail screen: what it renders                                *)
(* ===================================================================== *)

Module DetailView.
Import Js.

(** [a || b] on [string | undefined]. *)
Definition orTruthy (a b : option string) : option string :=
  if truthyOpt a then a else b.

(** [fetched?.volumeInfo]. *)
Definition info (fetched : option Types.Book) : option Types.BookVolumeInfo :=
  option_map Types.volumeInfo fetched.

(** [params.title || info?.title || '']. *)
Definition title (params : Types.BookDetailParams)
           (fetched : option Types.Book) : string :=
  match orTruthy (orTruthy (Types.p_title params)
                           (option_map Types.title (info fetched)))
                 (Some "") with
  | Some t => t
  | None => ""
  end.

(** The title as rendered: [title || 'Untitled']. *)
Definition shownTitle (params : Types.BookDetailParams)
           (fetched : option Types.Book) : string :=
  if truthy (title params fetched) then title params fetched
  else "Untitled".

(** [params.authors ?? (info?.authors?.join(', ') || 'Unknown')]. *)
Definition authors (params : Types.BookDetailParams)
           (fetched : option Types.Book) : string :=
  match Types.p_authors params with
  | Some a => a
  | None =>
      match info fetched with
      | Some i =>
          match Types.authors i with
          | Some names =>
              if truthy (SearchView.join names ", ")
              then SearchView.join names ", " else "Unknown"
          | None => "Unknown"
          end
      | None => "Unknown"
      end
  end.

(** [params.description ?? info?.description]. *)
Definition description (params : Types.BookDetailParams)
           (fetched : option Types.Book) : option string :=
  BookDetail.orNullish (Types.p_description params)
    (match info fetched with
     | Some i => Types.description i
     | None => None
     end).

(** [s.replace(/<[^>]+>/g, '')], read left to right.  [open] is [None]
    outside a candidate tag and otherwise holds the text read since its
    [<], that character included.  A [>] closes the candidate, which is
    then dropped, unless nothing stands between [<] and [>]; a candidate
    that the end of the text leaves open was no match. *)
Fixpoint stripFrom (open : option string) (s : string) : string :=
  match s, open with
  | EmptyString, None => EmptyString
  | EmptyString, Some seen => seen
  | String c rest, None =>
      if Ascii.eqb c "<" then stripFrom (Some "<") rest
      else String c (stripFrom None rest)
  | String c rest, Some seen =>
      if Ascii.eqb c ">" then
        if String.eqb seen "<" then "<>" ++ stripFrom None rest
        else stripFrom None rest
      else stripFrom (Some (seen ++ String c EmptyString)) rest
  end.

Definition stripTags (s : string) : string := stripFrom None s.

(** [description?.replace(/<[^>]+>/g, '').trim()
     || 'No description available.']. *)
Definition cleanDescription (params : Types.BookDetailParams)
           (fetched : option Types.Book) : string :=
  match description params fetched with
  | Some d =>
      if truthy (trim (stripTags d)) then trim (stripTags d)
      else "No description available."
  | None => "No description available."
  end.

(** Which of its four returns the component takes. *)
Inductive Screen : Type :=
| InvalidBook
| Spinner
| ErrorState (message : string)
| Content.

Definition screen (params : Types.BookDetailParams) (h : BookDetail.Hooks)
  : Screen :=
  if negb (BookDetail.hasId params) then InvalidBook
  else if negb (BookDetail.hasParams params) && BookDetail.loading h
  then Spinner
  else
    match BookDetail.fetchError h with
    | Some message =>
        if negb (BookDetail.hasParams params) && truthy message
        then ErrorState message else Content
    | None => Content
    end.

End DetailView.

(* ===================================================================== *)
(** ** src/components/book-card.tsx                                      *)
(* ===================================================================== *)

Module BookCard.

(** The [uri] of the [Image]: [info.imageLinks?.thumbnail]. *)
Definition uri (book : Types.Book) : option string :=
  Search.linkOf (Types.imageLinks (Types.volumeInfo book)) Types.thumbnail.

(** The second [Text]: [info.authors?.join(', ')]. *)
Definition authorsText (book : Types.Book) : option string :=
  option_map (fun names => SearchView.join names ", ")
             (Types.authors (Types.volumeInfo book)).

End BookCard.

(* ===================================================================== *)
(** * Vocabulary of the statements                                       *)
(* ===================================================================== *)

Import Js.

(** The value thrown for a response that is not [ok]:
    [new Error(`API error: ${res.status}`)]. *)
Definition apiError (s : nat) : Thrown :=
  newError ("API error: " ++ numberToString s).

(** A rejection of [fetch] itself, as in the test "handles network
    error": a network error is a [TypeError], and its message is chosen
    by the run time. *)
Definition networkError (message : string) : Thrown :=
  ErrorObject ClsTypeError message.

(** Both classifiers give [search] resp. [lookup] on the status [s]. *)
Definition classifiedAs (search lookup : string) (s : nat) : bool :=
  String.eqb (Search.getApiErrorMessage (apiError s)) search
  && String.eqb (BookDetail.getApiErrorMessage (apiError s)) lookup.

(** The five messages of the search classifier. *)
Definition searchMessages : list string :=
  ["Unable to connect. Check your internet connection and try again.";
   "Too many requests. Please try again in a moment.";
   "Something went wrong on our end. Please try again later.";
   "Request failed. Please check your connection and try again.";
   "Something went wrong. Please try again."].

(** The five messages of the lookup classifier. *)
Definition lookupMessages : list string :=
  ["Unable to connect. Check your internet connection and try again.";
   "Too many requests. Please try again in a moment.";
   "Something went wrong on our end. Please try again later.";
   "Book could not be loaded. Please try again.";
   "Something went wrong. Please try again."].

(** The exception that reaches the [catch] of [fetchBookById], if any,
    by the answer of the network. *)
Definition lookupFailure (answer : FetchOutcome) : option Thrown :=
  match answer with
  | inl e => Some e
  | inr res =>
      if negb (ok res) then Some (apiError (status res))
      else match json res with
           | inl e => Some e
           | inr _ => None
           end
  end.

(** What the [catch] of [fetchBookById] returns for the exception [e]. *)
Definition lookupFailed (e : Thrown) : Exc BookDetail.LookupResult :=
  inr {| BookDetail.book := VNull;
         BookDetail.error := Some (BookDetail.getApiErrorMessage e) |}.

(** The message that the Detail screen makes up for a lookup that
    succeeded with nothing. *)
Definition notFoundMessage : string :=
  "Book not found. It may have been removed or the link is invalid.".

(** Every search call of the controller carries the request that
    [fetchBooks] builds from its argument. *)
Definition wellFormedCall (key : option string) (c : SearchScreen.Call)
  : Prop :=
  SearchScreen.request c = Search.searchRequest key (SearchScreen.arg c).


(** A response with one volume for the query "a". *)
Definition volumeForA : Value :=
  VObject [("id", VString "vol-a");
           ("volumeInfo", VObject [("title", VString "A")])].

(** The network's answer to the search for "a". *)
Definition answerForA : FetchOutcome :=
  inr (mkResponse true 200 (inr (VObject [("items", VArray [volumeForA])]))).

(** The user types "a", the debounce fires the search for "a", the user
    goes on to "ab" and the search for "ab" is issued; then the response
    for "a" arrives. *)
Definition staleSession : list SearchScreen.Event :=
  [SearchScreen.ChangeText "a"; SearchScreen.Elapse 400;
   SearchScreen.Elapse 50; SearchScreen.ChangeText "ab";
   SearchScreen.Elapse 400].

(** The test [!query.trim()] of the debounce effect. *)
Definition blank (text : string) : bool := negb (truthy (trim text)).

(** No text that the session types has anything but white space. *)
Definition onlyBlankInput (events : list SearchScreen.Event) : bool :=
  forallb (fun e => match e with
                    | SearchScreen.ChangeText text => blank text
                    | _ => true
                    end) events.

(** The controller has issued nothing and has nothing scheduled, under a
    blank query and an empty result list. *)
Definition idleBlank (s : SearchScreen.State) : Prop :=
  SearchScreen.calls s = []
  /\ SearchScreen.pending s = []
  /\ SearchScreen.timer s = None
  /\ blank (SearchScreen.query (SearchScreen.hooks s)) = true
  /\ SearchScreen.books (SearchScreen.hooks s) = VArray [].

(** Neither a call already issued nor the pending timeout holds a blank
    text. *)
Definition noBlankCall (s : SearchScreen.State) : Prop :=
  Forall (fun c => blank (SearchScreen.arg c) = false) (SearchScreen.calls s)
  /\ match SearchScreen.timer s with
     | Some (_, q) => blank q = false
     | None => True
     end.

(** Each keystroke leaves a text other than the one before it ([prev] is
    the text before the first keystroke). *)
Fixpoint changing (prev : string) (ks : list SearchScreen.Keystroke) : bool :=
  match ks with
  | [] => true
  | k :: rest => negb (String.eqb (snd k) prev) && changing (snd k) rest
  end.

(** Every keystroke but the first comes less than 400 time units after
    the one before it. *)
Definition rapid (ks : list SearchScreen.Keystroke) : bool :=
  forallb (fun k => Nat.ltb (fst k) 400) (tl ks).

(** The text that the last keystroke leaves. *)
Definition finalText (ks : list SearchScreen.Keystroke) : string :=
  last (map snd ks) "".

(** The time of the last keystroke of a session that starts at [t0]. *)
Definition lastKeystrokeAt (t0 : nat) (ks : list SearchScreen.Keystroke)
  : nat :=
  t0 + list_sum (map fst ks).

(** The state right after a keystroke that left [text], in a session
    that has issued no call yet. *)
Definition justTyped (text : string) (s : SearchScreen.State) : Prop :=
  SearchScreen.mounted s = true
  /\ SearchScreen.calls s = []
  /\ SearchScreen.query (SearchScreen.hooks s) = text
  /\ SearchScreen.timer s
     = if blank text then None else Some (SearchScreen.now s + 400, text).

(** A character that needs no escaping in a URL component, or the
    escape sign itself. *)
Definition urlSafe (c : ascii) : bool :=
  BookDetail.unreserved (nat_of_ascii c) || Ascii.eqb c "%".

(** The value of a hexadecimal digit as [hexDigit] writes it. *)
Definition unhex (c : ascii) : option nat :=
  let n := nat_of_ascii c in
  if BookDetail.between 48 57 n then Some (n - 48)
  else if BookDetail.between 65 70 n then Some (n - 55)
  else None.

(** Reads one escape [%XX] in front of [s]. *)
Definition readEscape (s : string) : option (nat * string) :=
  match s with
  | String p (String h (String l rest)) =>
      if Ascii.eqb p "%" then
        match unhex h, unhex l with
        | Some a, Some b => Some (16 * a + b, rest)
        | _, _ => None
        end
      else None
  | _ => None
  end.

(** Reads back the code unit that [encodeUnit] wrote in front of [s];
    it serves to show that the encoding loses nothing. *)
Definition decodeUnit (s : string) : option (ascii * string) :=
  match s with
  | EmptyString => None
  | String c rest =>
      if Ascii.eqb c "%" then
        match readEscape s with
        | Some (b1, rest1) =>
            if Nat.ltb b1 128 then Some (ascii_of_nat b1, rest1)
            else match readEscape rest1 with
                 | Some (b2, rest2) =>
                     Some (ascii_of_nat ((b1 - 192) * 64 + (b2 - 128)), rest2)
                 | None => None
                 end
        | None => None
        end
      else Some (c, rest)
  end.

(** The [key] parameter that a configured API key should give. *)
Definition expectedKey (key : option string) : option string :=
  match key with
  | Some k => if truthy k then Some k else None
  | None => None
  end.

(** The first and the last code unit of a string. *)
Definition firstUnit (s : string) : option ascii :=
  match s with
  | EmptyString => None
  | String c _ => Some c
  end.

Fixpoint lastUnit (s : string) : option ascii :=
  match s with
  | EmptyString => None
  | String c rest =>
      match lastUnit rest with
      | Some d => Some d
      | None => Some c
      end
  end.

(** A code unit, if any, that is no white space. *)
Definition notWhite (o : option ascii) : Prop :=
  match o with
  | Some c => isWhiteSpace c = false
  | None => True
  end.

(** The call that the timeout set at time [t] for [text] makes when the
    next [wait] time units bring no other keystroke. *)
Definition fired (key : option string) (text : string) (t wait : nat)
  : list SearchScreen.Call :=
  if negb (blank text) && Nat.leb 400 wait
  then [SearchScreen.mkCall (t + 400) text (Search.searchRequest key text)]
  else [].

(** The calls of a typing session that starts at [t] and ends with a
    wait of [d]: one for each keystroke that leaves a non-blank text and
    is followed by a wait of 400 time units or more. *)
Fixpoint expectedCalls (key : option string) (t : nat)
         (ks : list SearchScreen.Keystroke) (d : nat)
  : list SearchScreen.Call :=
  match ks with
  | [] => []
  | k :: rest =>
      (fired key (snd k) (t + fst k)
             (match rest with
              | [] => d
              | k' :: _ => fst k'
              end)
         ++ expectedCalls key (t + fst k) rest d)%list
  end.

(** No keystroke comes exactly 400 time units after the one before it
    (when the timeout and the keystroke would be due together). *)
Definition noTie (ks : list SearchScreen.Keystroke) : bool :=
  forallb (fun k => negb (Nat.eqb (fst k) 400)) (tl ks).

(** The state right after a keystroke that left [text]. *)
Definition typedAfter (text : string) (s : SearchScreen.State) : Prop :=
  SearchScreen.mounted s = true
  /\ SearchScreen.query (SearchScreen.hooks s) = text
  /\ SearchScreen.timer s
     = if blank text then None else Some (SearchScreen.now s + 400, text).

(** While the component is mounted, the loader of the search is backed
    by a request in flight. *)
Definition loaderBacked (s : SearchScreen.State) : Prop :=
  SearchScreen.mounted s = true ->
  SearchScreen.loading (SearchScreen.hooks s) = true ->
  SearchScreen.pending s <> [].

(** The code unit [c] occurs in [s]. *)
Fixpoint mentions (c : ascii) (s : string) : bool :=
  match s with
  | EmptyString => false
  | String d rest => Ascii.eqb d c || mentions c rest
  end.

(** A candidate tag as [stripFrom] carries it: a [<] followed by text
    without [>]. *)
Definition openTag (seen : string) : bool :=
  match seen with
  | EmptyString => false
  | String c w => Ascii.eqb c "<" && negb (mentions ">" w)
  end.

(** A timeout that is pending belongs to a mounted screen, holds the
    text that is in the input now, which is not blank, and falls due
    within the next 400 time units. *)
Definition timerCurrent (s : SearchScreen.State) : Prop :=
  match SearchScreen.timer s with
  | Some (due, q) =>
      SearchScreen.mounted s = true
      /\ q = SearchScreen.query (SearchScreen.hooks s)
      /\ blank q = false
      /\ SearchScreen.now s < due <= SearchScreen.now s + 400
  | None => True
  end.

(* ===================================================================== *)
(** * Properties                                                         *)
(* ===================================================================== *)

#[local] Arguments trim : simpl never.
#[local] Arguments Search.readItems : simpl never.
#[local] Arguments SearchScreen.fetchBooks : simpl never.

(** ** The callbacks of a mounted Search screen, as equations *)

Lemma set_mounted f h t c n cs p :
  SearchScreen.set f (SearchScreen.mkState h true t c n cs p)
  = SearchScreen.mkState (f h) true t c n cs p.
Proof. reflexivity. Qed.

Lemma fetchBooks_mounted key q h t c n cs p :
  SearchScreen.fetchBooks key q (SearchScreen.mkState h true t c n cs p)
  = SearchScreen.mkState
      (SearchScreen.setLoading true (SearchScreen.setErrorSearch None h))
      true t c n
      (cs ++ [SearchScreen.mkCall n q (Search.searchRequest key q)])
      (p ++ [List.length cs]).
Proof. reflexivity. Qed.

Lemma fetchBooksSettled_mounted id answer h t c n cs p :
  existsb (Nat.eqb id) p = true ->
  SearchScreen.fetchBooksSettled
    id answer (SearchScreen.mkState h true t c n cs p)
  = SearchScreen.mkState
      (SearchScreen.setLoading
         false
         match Search.readItems answer with
         | inr items => SearchScreen.setBooks items h
         | inl e =>
             SearchScreen.setErrorSearch
               (Some (Search.getApiErrorMessage e))
               (SearchScreen.setBooks (VArray []) h)
         end)
      true t c n cs
      (filter (fun i => negb (Nat.eqb id i)) p).
Proof.
  intros Hp. unfold SearchScreen.fetchBooksSettled.
  cbn [SearchScreen.pending]. rewrite Hp. cbn [negb].
  destruct (Search.readItems answer); reflexivity.
Qed.

Lemma changeText_mounted text h t c n cs p :
  String.eqb text (SearchScreen.query h) = false ->
  SearchScreen.changeText text (SearchScreen.mkState h true t c n cs p)
  = if negb (truthy (trim text))
    then SearchScreen.mkState
           (SearchScreen.setBooks (VArray []) (SearchScreen.setQuery text h))
           true None c n cs p
    else SearchScreen.mkState (SearchScreen.setQuery text h)
                              true (Some (n + 400, text)) c n cs p.
Proof.
  intros Hne. unfold SearchScreen.changeText.
  cbn [SearchScreen.mounted SearchScreen.hooks negb]. rewrite Hne.
  unfold SearchScreen.debounceEffect.
  destruct (negb (truthy (trim text))); reflexivity.
Qed.

Lemma elapse_idle key dt h m c n cs p :
  SearchScreen.elapse key dt (SearchScreen.mkState h m None c n cs p)
  = SearchScreen.mkState h m None c (n + dt) cs p.
Proof. reflexivity. Qed.

Lemma elapse_early key dt h m due q c n cs p :
  Nat.leb due (n + dt) = false ->
  SearchScreen.elapse key dt
    (SearchScreen.mkState h m (Some (due, q)) c n cs p)
  = SearchScreen.mkState h m (Some (due, q)) c (n + dt) cs p.
Proof.
  intros Hd. unfold SearchScreen.elapse.
  cbn [SearchScreen.timer SearchScreen.now]. rewrite Hd. reflexivity.
Qed.

Lemma elapse_due key dt h due q c n cs p :
  Nat.leb due (n + dt) = true ->
  SearchScreen.elapse key dt
    (SearchScreen.mkState h true (Some (due, q)) c n cs p)
  = SearchScreen.mkState
      (SearchScreen.setLoading true (SearchScreen.setErrorSearch None h))
      true None c (n + dt)
      (cs ++ [SearchScreen.mkCall due q (Search.searchRequest key q)])
      (p ++ [List.length cs]).
Proof.
  intros Hd. unfold SearchScreen.elapse.
  cbn [SearchScreen.timer SearchScreen.now]. rewrite Hd. reflexivity.
Qed.

Lemma leb_shift (n a b : nat) : Nat.leb (n + a) (n + b) = Nat.leb a b.
Proof.
  destruct (Nat.leb_spec a b), (Nat.leb_spec (n + a) (n + b));
    try reflexivity; lia.
Qed.

Lemma issued_call_pending (p : list nat) (id : nat) :
  existsb (Nat.eqb id) (p ++ [id]) = true.
Proof.
  rewrite existsb_app. cbn [existsb].
  rewrite Nat.eqb_refl, orb_true_r. reflexivity.
Qed.

(** ** The error classifier *)

Lemma checkOk_throws_apiError (res : Response) :
  ok res = false ->
  Search.checkOk res = inl (apiError (status res))
  /\ BookDetail.checkOk res = inl (apiError (status res)).
Proof.
  intros Hok. unfold Search.checkOk, BookDetail.checkOk.
  rewrite Hok. split; reflexivity.
Qed.

(** A boolean test that holds on a whole interval holds at each of its
    points. *)
Lemma interval_cases (P : nat -> bool) (lo len : nat) :
  forallb P (seq lo len) = true ->
  forall s, lo <= s < lo + len -> P s = true.
Proof.
  intros Hall s Hs.
  rewrite forallb_forall in Hall.
  apply Hall, in_seq. exact Hs.
Qed.

Lemma classifiedAs_spec (search lookup : string) (s : nat) :
  classifiedAs search lookup s = true ->
  Search.getApiErrorMessage (apiError s) = search
  /\ BookDetail.getApiErrorMessage (apiError s) = lookup.
Proof.
  unfold classifiedAs. intros H.
  apply andb_prop in H. destruct H as [H1 H2].
  split; apply String.eqb_eq; assumption.
Qed.

Lemma server_statuses :
  forallb (classifiedAs
             "Something went wrong on our end. Please try again later."
             "Something went wrong on our end. Please try again later.")
          (seq 500 100) = true.
Proof. vm_compute. reflexivity. Qed.

Lemma client_statuses :
  forallb (fun s =>
             Nat.eqb s 429
             || classifiedAs
                  "Request failed. Please check your connection and try again."
                  "Book could not be loaded. Please try again." s)
          (seq 400 100) = true.
Proof. vm_compute. reflexivity. Qed.

(** C2.  Status part: an "API error: s" failure is classified as rate
    limited for s = 429, as a server error for every s in [500,600), and
    as the call site's client error for every other s in [400,500).
    Order part: the connectivity test is decided first, then the 429
    prefix, then the 5xx prefix, then the 4xx prefix, and what passes
    none of them gets the generic fallback. *)
Theorem C2_classifier_decision_table :
  (forall s : nat,
      (s = 429 ->
       Search.getApiErrorMessage (apiError s)
         = "Too many requests. Please try again in a moment."
       /\ BookDetail.getApiErrorMessage (apiError s)
         = "Too many requests. Please try again in a moment.")
      /\ (500 <= s < 600 ->
          Search.getApiErrorMessage (apiError s)
            = "Something went wrong on our end. Please try again later."
          /\ BookDetail.getApiErrorMessage (apiError s)
            = "Something went wrong on our end. Please try again later.")
      /\ (400 <= s < 500 -> s <> 429 ->
          Search.getApiErrorMessage (apiError s)
            = "Request failed. Please check your connection and try again."
          /\ BookDetail.getApiErrorMessage (apiError s)
            = "Book could not be loaded. Please try again."))
  /\ (forall e : Thrown,
         let connectivity :=
           instanceofTypeError e && includes (messageOf e) "fetch" in
         let is429 :=
           instanceofError e && startsWith (messageOf e) "API error: 429" in
         let is5xx :=
           instanceofError e && startsWith (messageOf e) "API error: 5" in
         let is4xx :=
           instanceofError e && startsWith (messageOf e) "API error: 4" in
         (connectivity = true ->
          Search.getApiErrorMessage e
            = "Unable to connect. Check your internet connection and try again."
          /\ BookDetail.getApiErrorMessage e
            = "Unable to connect. Check your internet connection and try again.")
         /\ (connectivity = false -> is429 = true ->
             Search.getApiErrorMessage e
               = "Too many requests. Please try again in a moment."
             /\ BookDetail.getApiErrorMessage e
               = "Too many requests. Please try again in a moment.")
         /\ (connectivity = false -> is429 = false -> is5xx = true ->
             Search.getApiErrorMessage e
               = "Something went wrong on our end. Please try again later."
             /\ BookDetail.getApiErrorMessage e
               = "Something went wrong on our end. Please try again later.")
         /\ (connectivity = false -> is429 = false -> is5xx = false ->
             is4xx = true ->
             Search.getApiErrorMessage e
               = "Request failed. Please check your connection and try again."
             /\ BookDetail.getApiErrorMessage e
               = "Book could not be loaded. Please try again.")
         /\ (connectivity = false -> is429 = false -> is5xx = false ->
             is4xx = false ->
             Search.getApiErrorMessage e
               = "Something went wrong. Please try again."
             /\ BookDetail.getApiErrorMessage e
               = "Something went wrong. Please try again.")).
Proof.
  split.
  - intros s. split; [| split].
    + intros ->. split; reflexivity.
    + intros Hs. apply classifiedAs_spec.
      apply (interval_cases _ 500 100 server_statuses). lia.
    + intros Hs Hne. apply classifiedAs_spec.
      pose proof (interval_cases _ 400 100 client_statuses s) as Hc.
      cbv beta in Hc.
      destruct (Nat.eqb_spec s 429) as [E | _]; [contradiction |].
      apply Hc. lia.
  - intros e. cbv zeta.
    unfold Search.getApiErrorMessage, BookDetail.getApiErrorMessage.
    destruct (instanceofTypeError e && includes (messageOf e) "fetch");
      destruct (instanceofError e);
      destruct (startsWith (messageOf e) "API error: 429");
      destruct (startsWith (messageOf e) "API error: 5");
      destruct (startsWith (messageOf e) "API error: 4");
      cbn [andb]; repeat split; intros; try reflexivity; discriminate.
Qed.

Lemma C2_classifier_decision_table_witness :
  Search.getApiErrorMessage (apiError 404)
    = "Request failed. Please check your connection and try again."
  /\ BookDetail.getApiErrorMessage (apiError 404)
    = "Book could not be loaded. Please try again.".
Proof.
  apply (proj2 (proj2 (proj1 C2_classifier_decision_table 404))).
  - lia.
  - discriminate.
Defined.

(** C3.  The classifier recognises a transport failure by the word
    "fetch" in the message of the [TypeError]: the rejection of the test
    "handles network error", [TypeError('Failed to fetch')], gets the
    connectivity message.  The rejection that React Native's [fetch]
    makes when the host cannot be reached,
    [TypeError('Network request failed')], passes that test by and gets
    the generic fallback from both classifiers, and so from the popular
    client and from the lookup client. *)
Theorem C3_network_request_failed_gets_fallback :
  let unreachable : Request -> FetchOutcome :=
    fun _ => inl (networkError "Network request failed") in
  Search.getApiErrorMessage (networkError "Failed to fetch")
    = "Unable to connect. Check your internet connection and try again."
  /\ BookDetail.getApiErrorMessage (networkError "Failed to fetch")
    = "Unable to connect. Check your internet connection and try again."
  /\ Search.getApiErrorMessage (networkError "Network request failed")
    = "Something went wrong. Please try again."
  /\ BookDetail.getApiErrorMessage (networkError "Network request failed")
    = "Something went wrong. Please try again."
  /\ (forall key,
         Search.fetchPopularBooks key unreachable
         = inr {| Search.data := VArray [];
                  Search.error :=
                    Some "Something went wrong. Please try again." |})
  /\ (forall key id,
         BookDetail.fetchBookById key unreachable id
         = inr {| BookDetail.book := VNull;
                  BookDetail.error :=
                    Some "Something went wrong. Please try again." |}).
Proof.
  cbv zeta. repeat split.
Qed.

(** ** The clients *)

Lemma search_message_classified (e : Thrown) :
  In (Search.getApiErrorMessage e) searchMessages.
Proof.
  unfold Search.getApiErrorMessage, searchMessages.
  destruct (instanceofTypeError e && includes (messageOf e) "fetch");
    [cbn; tauto |].
  destruct (instanceofError e); [| cbn; tauto].
  destruct (startsWith (messageOf e) "API error: 429"); [cbn; tauto |].
  destruct (startsWith (messageOf e) "API error: 5"); [cbn; tauto |].
  destruct (startsWith (messageOf e) "API error: 4"); cbn; tauto.
Qed.

Lemma lookup_message_classified (e : Thrown) :
  In (BookDetail.getApiErrorMessage e) lookupMessages.
Proof.
  unfold BookDetail.getApiErrorMessage, lookupMessages.
  destruct (instanceofTypeError e && includes (messageOf e) "fetch");
    [cbn; tauto |].
  destruct (instanceofError e); [| cbn; tauto].
  destruct (startsWith (messageOf e) "API error: 429"); [cbn; tauto |].
  destruct (startsWith (messageOf e) "API error: 5"); [cbn; tauto |].
  destruct (startsWith (messageOf e) "API error: 4"); cbn; tauto.
Qed.

Lemma fetchPopularBooks_cases key fetch :
  Search.fetchPopularBooks key fetch
  = match Search.readItems (fetch (Search.popularRequest key)) with
    | inl e => inr {| Search.data := VArray [];
                      Search.error := Some (Search.getApiErrorMessage e) |}
    | inr items => inr {| Search.data := items; Search.error := None |}
    end.
Proof.
  unfold Search.fetchPopularBooks.
  destruct (Search.readItems (fetch (Search.popularRequest key)));
    reflexivity.
Qed.

Lemma fetchBookById_cases key fetch id :
  BookDetail.fetchBookById key fetch id
  = match fetch (BookDetail.lookupRequest key id) with
    | inl e => lookupFailed e
    | inr res =>
        if ok res
        then match json res with
             | inl e => lookupFailed e
             | inr book => inr {| BookDetail.book := book;
                                  BookDetail.error := None |}
             end
        else lookupFailed (apiError (status res))
    end.
Proof.
  unfold BookDetail.fetchBookById, BookDetail.checkOk, lookupFailed.
  destruct (fetch (BookDetail.lookupRequest key id)) as [e | res];
    [reflexivity |].
  cbn. destruct (ok res); cbn; [| reflexivity].
  destruct (json res); reflexivity.
Qed.

Lemma readItems_rejected (e : Thrown) :
  Search.readItems (inl e) = inl e.
Proof. reflexivity. Qed.

Lemma readItems_not_ok (res : Response) :
  ok res = false ->
  Search.readItems (inr res) = inl (apiError (status res)).
Proof.
  intros Hok. unfold Search.readItems, Search.checkOk.
  cbn. rewrite Hok. reflexivity.
Qed.

Lemma readItems_bad_body (res : Response) (e : Thrown) :
  ok res = true -> json res = inl e ->
  Search.readItems (inr res) = inl e.
Proof.
  intros Hok Hj. unfold Search.readItems, Search.checkOk.
  cbn. rewrite Hok. cbn. rewrite Hj. reflexivity.
Qed.

Lemma readItems_items (res : Response) (body items : Value) :
  ok res = true -> json res = inr body ->
  getMember body "items" = inr items ->
  Search.readItems (inr res) = inr (coalesce items (VArray [])).
Proof.
  intros Hok Hj Hitems. unfold Search.readItems, Search.checkOk.
  cbn. rewrite Hok. cbn. rewrite Hj. cbn. rewrite Hitems. reflexivity.
Qed.

(** C5.  Whatever the network answers, each client returns a result and
    throws nothing.  When [fetch] rejects, when the response is not [ok],
    or when reading the body fails, [fetchPopularBooks] returns the empty
    list and [fetchBookById] returns [null], each with the classifier's
    message for the exception, which is one of its five messages. *)
Theorem C5_clients_never_throw :
  forall (key : option string) (fetch : Request -> FetchOutcome),
    (exists r, Search.fetchPopularBooks key fetch = inr r)
    /\ (forall id, exists r, BookDetail.fetchBookById key fetch id = inr r)
    /\ (forall e,
           fetch (Search.popularRequest key) = inl e
           \/ (exists res, fetch (Search.popularRequest key) = inr res
                           /\ ok res = false /\ e = apiError (status res))
           \/ (exists res, fetch (Search.popularRequest key) = inr res
                           /\ ok res = true /\ json res = inl e) ->
           Search.fetchPopularBooks key fetch
             = inr {| Search.data := VArray [];
                      Search.error := Some (Search.getApiErrorMessage e) |}
           /\ In (Search.getApiErrorMessage e) searchMessages)
    /\ (forall id e,
           fetch (BookDetail.lookupRequest key id) = inl e
           \/ (exists res, fetch (BookDetail.lookupRequest key id) = inr res
                           /\ ok res = false /\ e = apiError (status res))
           \/ (exists res, fetch (BookDetail.lookupRequest key id) = inr res
                           /\ ok res = true /\ json res = inl e) ->
           BookDetail.fetchBookById key fetch id
             = inr {| BookDetail.book := VNull;
                      BookDetail.error :=
                        Some (BookDetail.getApiErrorMessage e) |}
           /\ In (BookDetail.getApiErrorMessage e) lookupMessages).
Proof.
  intros key fetch. split; [| split; [| split]].
  - rewrite fetchPopularBooks_cases.
    destruct (Search.readItems (fetch (Search.popularRequest key)));
      eexists; reflexivity.
  - intros id. rewrite fetchBookById_cases. unfold lookupFailed.
    destruct (fetch (BookDetail.lookupRequest key id)) as [e | res];
      [eexists; reflexivity |].
    destruct (ok res); [| eexists; reflexivity].
    destruct (json res); eexists; reflexivity.
  - intros e Hmode. split; [| apply search_message_classified].
    rewrite fetchPopularBooks_cases.
    destruct Hmode
      as [Hf | [(res & Hf & Hok & ->) | (res & Hf & Hok & Hj)]];
      rewrite Hf.
    + rewrite readItems_rejected. reflexivity.
    + rewrite (readItems_not_ok res Hok). reflexivity.
    + rewrite (readItems_bad_body res e Hok Hj). reflexivity.
  - intros id e Hmode. split; [| apply lookup_message_classified].
    rewrite fetchBookById_cases. unfold lookupFailed.
    destruct Hmode
      as [Hf | [(res & Hf & Hok & ->) | (res & Hf & Hok & Hj)]];
      rewrite Hf.
    + reflexivity.
    + rewrite Hok. reflexivity.
    + rewrite Hok, Hj. reflexivity.
Qed.

Lemma C5_clients_never_throw_witness :
  let fetch : Request -> FetchOutcome :=
    fun _ => inr (mkResponse false 503 (inr VNull)) in
  Search.fetchPopularBooks (Some "k") fetch
    = inr {| Search.data := VArray [];
             Search.error :=
               Some "Something went wrong on our end. Please try again later." |}
  /\ BookDetail.fetchBookById (Some "k") fetch "abc"
    = inr {| BookDetail.book := VNull;
             BookDetail.error :=
               Some "Something went wrong on our end. Please try again later." |}.
Proof.
  intros fetch.
  destruct (C5_clients_never_throw (Some "k") fetch) as (_ & _ & Hp & Hl).
  split.
  - apply (Hp (apiError 503)). right; left.
    exists (mkResponse false 503 (inr VNull)). repeat split.
  - apply (Hl "abc" (apiError 503)). right; left.
    exists (mkResponse false 503 (inr VNull)). repeat split.
Defined.

Lemma readItems_no_items (res : Response) (body : Value) :
  ok res = true -> json res = inr body ->
  getMember body "items" = inr VUndefined
  \/ getMember body "items" = inr (VArray []) ->
  Search.readItems (inr res) = inr (VArray []).
Proof.
  intros Hok Hj Hitems. unfold Search.readItems, Search.checkOk.
  cbn. rewrite Hok. cbn. rewrite Hj. cbn.
  destruct Hitems as [-> | ->]; reflexivity.
Qed.

(** C6.  A successful response whose body has no [items] field, or an
    empty [items] list, is not an error: [fetchPopularBooks] returns the
    empty list with a [null] error, and the user search that
    [fetchBooks(q)] started ends with the empty list in [books], [null]
    in [errorSearch] and [loading] off. *)
Theorem C6_empty_result_is_not_an_error (res : Response) (body : Value) :
  ok res = true ->
  json res = inr body ->
  getMember body "items" = inr VUndefined
  \/ getMember body "items" = inr (VArray []) ->
  (forall key fetch,
      fetch (Search.popularRequest key) = inr res ->
      Search.fetchPopularBooks key fetch
        = inr {| Search.data := VArray []; Search.error := None |})
  /\ (forall key q s,
         SearchScreen.mounted s = true ->
         let s' := SearchScreen.fetchBooksSettled
                     (List.length (SearchScreen.calls s)) (inr res)
                     (SearchScreen.fetchBooks key q s) in
         SearchScreen.books (SearchScreen.hooks s') = VArray []
         /\ SearchScreen.errorSearch (SearchScreen.hooks s') = None
         /\ SearchScreen.loading (SearchScreen.hooks s') = false).
Proof.
  intros Hok Hj Hitems. split.
  - intros key fetch Hf. rewrite fetchPopularBooks_cases, Hf.
    rewrite (readItems_no_items res body Hok Hj Hitems). reflexivity.
  - intros key q [h m t c n cs p] Hm. cbn in Hm. subst m.
    cbv zeta. cbn [SearchScreen.calls].
    rewrite fetchBooks_mounted.
    rewrite (fetchBooksSettled_mounted _ _ _ _ _ _ _ _
               (issued_call_pending p (List.length cs))).
    rewrite (readItems_no_items res body Hok Hj Hitems).
    repeat split.
Qed.

Lemma C6_empty_result_is_not_an_error_witness :
  Search.fetchPopularBooks None
    (fun _ => inr (mkResponse true 200 (inr (VObject [("kind", VString "books#volumes"); ("totalItems", VNumber 0)]))))
  = inr {| Search.data := VArray []; Search.error := None |}.
Proof.
  apply (C6_empty_result_is_not_an_error
           (mkResponse true 200 (inr (VObject [("kind", VString "books#volumes"); ("totalItems", VNumber 0)])))
           (VObject [("kind", VString "books#volumes"); ("totalItems", VNumber 0)])).
  - reflexivity.
  - reflexivity.
  - left. reflexivity.
  - reflexivity.
Defined.

Lemma lookup_message_not_notFound (e : Thrown) :
  BookDetail.getApiErrorMessage e <> notFoundMessage.
Proof.
  pose proof (lookup_message_classified e) as Hin.
  unfold lookupMessages in Hin. cbn [In] in Hin.
  intros Heq. rewrite Heq in Hin. unfold notFoundMessage in Hin.
  repeat (destruct Hin as [Hin | Hin]; [discriminate Hin |]).
  exact Hin.
Qed.

(** C7.  A result of either client never has both fields populated: a
    non-null error comes with the empty list, resp. with [null].  The
    lookup client sets an error exactly when its [try] block threw (the
    transport failed, the response was not [ok], or its body could not
    be read) and never sets the "not found" message; for a lookup that
    succeeded with [null], the client returns a [null] error and the
    effect of the Detail screen puts the "not found" message in
    [fetchError]. *)
Theorem C7_result_fields_exclusive :
  forall (key : option string) (fetch : Request -> FetchOutcome),
    (exists r, Search.fetchPopularBooks key fetch = inr r
               /\ (Search.error r = None \/ Search.data r = VArray []))
    /\ (forall id, exists r,
           BookDetail.fetchBookById key fetch id = inr r
           /\ (BookDetail.error r = None \/ BookDetail.book r = VNull)
           /\ (BookDetail.error r <> None
               <-> lookupFailure (fetch (BookDetail.lookupRequest key id))
                   <> None)
           /\ BookDetail.error r <> Some notFoundMessage)
    /\ (forall id res params,
           fetch (BookDetail.lookupRequest key id) = inr res ->
           ok res = true -> json res = inr VNull ->
           BookDetail.hasId params = true ->
           BookDetail.hasParams params = false ->
           BookDetail.fetchBookById key fetch id
             = inr {| BookDetail.book := VNull; BookDetail.error := None |}
           /\ BookDetail.fetchError
                (BookDetail.hooks
                   (BookDetail.effectSettled
                      (BookDetail.fetchBookById key fetch id)
                      (BookDetail.mount params)))
              = Some notFoundMessage).
Proof.
  intros key fetch. split; [| split].
  - rewrite fetchPopularBooks_cases.
    destruct (Search.readItems (fetch (Search.popularRequest key)));
      eexists; split; try reflexivity; cbn; tauto.
  - intros id. rewrite fetchBookById_cases.
    unfold lookupFailure, lookupFailed.
    destruct (fetch (BookDetail.lookupRequest key id)) as [e | res].
    + eexists. split; [reflexivity |]. cbn. repeat split;
        try tauto; try discriminate.
      intros H. injection H as H.
      exact (lookup_message_not_notFound e H).
    + destruct (ok res); cbn.
      * destruct (json res) as [e | b].
        -- eexists. split; [reflexivity |]. cbn. repeat split;
             try tauto; try discriminate.
           intros H. injection H as H.
           exact (lookup_message_not_notFound e H).
        -- eexists. split; [reflexivity |]. cbn. repeat split;
             try tauto; try discriminate.
      * eexists. split; [reflexivity |]. cbn. repeat split;
          try tauto; try discriminate.
        intros H. injection H as H.
        exact (lookup_message_not_notFound (apiError (status res)) H).
  - intros id res params Hf Hok Hj Hid Hp.
    rewrite fetchBookById_cases, Hf, Hok, Hj.
    split; [reflexivity |].
    unfold BookDetail.mount. rewrite Hid, Hp. reflexivity.
Qed.

Lemma C7_result_fields_exclusive_witness :
  let fetch : Request -> FetchOutcome :=
    fun _ => inr (mkResponse true 200 (inr VNull)) in
  let params :=
    Types.mkBookDetailParams (Some "zyTCAlFPjgYC") None None None None None in
  BookDetail.fetchBookById None fetch "zyTCAlFPjgYC"
    = inr {| BookDetail.book := VNull; BookDetail.error := None |}
  /\ BookDetail.fetchError
       (BookDetail.hooks
          (BookDetail.effectSettled
             (BookDetail.fetchBookById None fetch "zyTCAlFPjgYC")
             (BookDetail.mount params)))
     = Some notFoundMessage.
Proof.
  intros fetch params.
  apply (proj2 (proj2 (C7_result_fields_exclusive None fetch))
           "zyTCAlFPjgYC" (mkResponse true 200 (inr VNull)) params);
    reflexivity.
Defined.

Lemma fetchBooks_calls key q s :
  SearchScreen.calls (SearchScreen.fetchBooks key q s)
  = (SearchScreen.calls s
       ++ [SearchScreen.mkCall (SearchScreen.now s) q
                               (Search.searchRequest key q)])%list.
Proof.
  destruct s as [h m t c n cs p].
  unfold SearchScreen.fetchBooks, SearchScreen.set.
  destruct m; reflexivity.
Qed.

Lemma fetchBooks_timer key q s :
  SearchScreen.timer (SearchScreen.fetchBooks key q s) = SearchScreen.timer s.
Proof.
  destruct s as [h m t c n cs p].
  unfold SearchScreen.fetchBooks, SearchScreen.set.
  destruct m; reflexivity.
Qed.

Lemma set_calls f s :
  SearchScreen.calls (SearchScreen.set f s) = SearchScreen.calls s.
Proof. unfold SearchScreen.set. destruct (SearchScreen.mounted s); reflexivity. Qed.

Lemma step_calls key s e :
  SearchScreen.calls (SearchScreen.step key s e) = SearchScreen.calls s
  \/ exists t q,
      SearchScreen.calls (SearchScreen.step key s e)
      = (SearchScreen.calls s
           ++ [SearchScreen.mkCall t q (Search.searchRequest key q)])%list.
Proof.
  destruct e as [text | dt | id answer | r | |]; cbn [SearchScreen.step].
  - left. unfold SearchScreen.changeText, SearchScreen.debounceEffect.
    destruct (negb (SearchScreen.mounted s)); [reflexivity |].
    destruct (text =? SearchScreen.query (SearchScreen.hooks s));
      [reflexivity |].
    destruct (negb (truthy (trim text)));
      repeat (rewrite set_calls || cbn [SearchScreen.setTimer SearchScreen.calls]);
      reflexivity.
  - unfold SearchScreen.elapse.
    destruct (SearchScreen.timer s) as [[due q] |]; [| left; reflexivity].
    destruct (Nat.leb due (SearchScreen.now s + dt)); [| left; reflexivity].
    right. exists due, q.
    cbn [SearchScreen.setNow SearchScreen.calls].
    rewrite fetchBooks_calls. reflexivity.
  - left. unfold SearchScreen.fetchBooksSettled.
    destruct (negb (existsb (Nat.eqb id) (SearchScreen.pending s)));
      [reflexivity |].
    destruct (Search.readItems answer); repeat rewrite set_calls; reflexivity.
  - left. destruct s as [h m t c n cs p].
    unfold SearchScreen.popularSettled, SearchScreen.set.
    destruct r as [e | res]; destruct c; destruct m; reflexivity.
  - unfold SearchScreen.pressRetry.
    match goal with |- context [if ?b then _ else _] => destruct b end;
      [| left; reflexivity].
    right. exists (SearchScreen.now s), (SearchScreen.query (SearchScreen.hooks s)).
    apply fetchBooks_calls.
  - left. reflexivity.
Qed.

Lemma run_calls_wellFormed key es :
  forall s,
    Forall (wellFormedCall key) (SearchScreen.calls s) ->
    Forall (wellFormedCall key)
           (SearchScreen.calls (SearchScreen.run key es s)).
Proof.
  induction es as [| e es IH]; intros s Hs; [exact Hs |].
  cbn [SearchScreen.run fold_left]. apply IH.
  destruct (step_calls key s e) as [-> | (t & q & ->)]; [exact Hs |].
  apply Forall_app. split; [exact Hs |].
  constructor; [reflexivity | constructor].
Qed.

Lemma fetchBooks_pending key q s :
  SearchScreen.pending (SearchScreen.fetchBooks key q s)
  = (SearchScreen.pending s ++ [List.length (SearchScreen.calls s)])%list.
Proof.
  destruct s as [h m t c n cs p].
  unfold SearchScreen.fetchBooks, SearchScreen.set.
  destruct m; reflexivity.
Qed.

Lemma blank_nonempty (q : string) : blank q = false -> String.eqb q "" = false.
Proof.
  destruct q; [discriminate | reflexivity].
Qed.

(** C9.  The user search: the request that [fetchBooks(q)] builds has
    [maxResults] 20 and the trimmed [q] as its query; every invocation of
    [fetchBooks(q)] sends that request; typing a non-blank [q] and
    waiting out the debounce sends exactly it; and no search call of the
    screen carries another request.  The popular variant: the request of
    [fetchPopularBooks] has [maxResults] 15, the constant query
    [subject:fiction] and [orderBy] relevance, whatever the caller does;
    [fetchPopularBooks] returns what the network answers to that request;
    and a network that answers nothing but requests with these three
    parameters is enough for it to return the items. *)
Theorem C9_request_parameters :
  forall (key : option string) (q : string),
    (paramsGet (searchParams (Search.searchRequest key q)) "maxResults"
       = Some "20"
     /\ paramsGet (searchParams (Search.searchRequest key q)) "q"
       = Some (trim q))
    /\ (forall s,
           SearchScreen.calls (SearchScreen.fetchBooks key q s)
           = (SearchScreen.calls s
                ++ [SearchScreen.mkCall (SearchScreen.now s) q
                                        (Search.searchRequest key q)])%list
           /\ SearchScreen.pending (SearchScreen.fetchBooks key q s)
              = (SearchScreen.pending s
                   ++ [List.length (SearchScreen.calls s)])%list)
    /\ (forall t0,
           blank q = false ->
           SearchScreen.calls
             (SearchScreen.run key
                [SearchScreen.ChangeText q; SearchScreen.Elapse 400]
                (SearchScreen.mount t0))
           = [SearchScreen.mkCall (t0 + 400) q
                                  (Search.searchRequest key q)])
    /\ (forall t0 events,
           Forall (wellFormedCall key)
                  (SearchScreen.calls
                     (SearchScreen.run key events (SearchScreen.mount t0))))
    /\ (paramsGet (searchParams (Search.popularRequest key)) "maxResults"
         = Some "15"
        /\ paramsGet (searchParams (Search.popularRequest key)) "q"
          = Some "subject:fiction"
        /\ paramsGet (searchParams (Search.popularRequest key)) "orderBy"
          = Some "relevance"
        /\ endpoint (Search.popularRequest key)
          = "https://www.googleapis.com/books/v1/volumes")
    /\ (forall fetch,
           Search.fetchPopularBooks key fetch
           = match Search.readItems (fetch (Search.popularRequest key)) with
             | inl e =>
                 inr {| Search.data := VArray [];
                        Search.error := Some (Search.getApiErrorMessage e) |}
             | inr items =>
                 inr {| Search.data := items; Search.error := None |}
             end)
    /\ (forall fetch res body items,
           (forall r,
               endpoint r = "https://www.googleapis.com/books/v1/volumes" ->
               paramsGet (searchParams r) "q" = Some "subject:fiction" ->
               paramsGet (searchParams r) "orderBy" = Some "relevance" ->
               paramsGet (searchParams r) "maxResults" = Some "15" ->
               fetch r = inr res) ->
           ok res = true ->
           json res = inr body ->
           getMember body "items" = inr items ->
           Search.fetchPopularBooks key fetch
           = inr {| Search.data := coalesce items (VArray []);
                    Search.error := None |}).
Proof.
  intros key q.
  split; [split; reflexivity |].
  split; [intros s; split; [apply fetchBooks_calls | apply fetchBooks_pending] |].
  split.
  { intros t0 Hb. unfold SearchScreen.run, SearchScreen.mount.
    cbn [fold_left SearchScreen.step].
    rewrite changeText_mounted by (apply blank_nonempty, Hb).
    unfold blank in Hb. rewrite Hb.
    rewrite elapse_due by (apply Nat.leb_refl). reflexivity. }
  split; [intros t0 events; apply run_calls_wellFormed; constructor |].
  split; [repeat split |].
  split; [intros fetch; apply fetchPopularBooks_cases |].
  intros fetch res body items Hfetch Hok Hj Hitems.
  rewrite fetchPopularBooks_cases.
  rewrite (Hfetch (Search.popularRequest key)); try reflexivity.
  rewrite (readItems_items res body items Hok Hj Hitems). reflexivity.
Qed.

Lemma C9_request_parameters_witness :
  SearchScreen.calls
    (SearchScreen.run (Some "k")
       [SearchScreen.ChangeText " dune "; SearchScreen.Elapse 400]
       (SearchScreen.mount 0))
  = [SearchScreen.mkCall
       400 " dune "
       (mkRequest "https://www.googleapis.com/books/v1/volumes"
                  [("q", "dune"); ("maxResults", "20"); ("key", "k")])]
  /\ Search.fetchPopularBooks
       (Some "k")
       (fun r =>
          if String.eqb (endpoint r)
                        "https://www.googleapis.com/books/v1/volumes"
          then
            match paramsGet (searchParams r) "q",
                  paramsGet (searchParams r) "orderBy",
                  paramsGet (searchParams r) "maxResults" with
            | Some "subject:fiction", Some "relevance", Some "15" =>
                inr (mkResponse true 200
                       (inr (VObject [("items", VArray [VString "a book"])])))
            | _, _, _ => inl (networkError "Failed to fetch")
            end
          else inl (networkError "Failed to fetch"))
     = inr {| Search.data := VArray [VString "a book"];
              Search.error := None |}.
Proof.
  destruct (C9_request_parameters (Some "k") " dune ")
    as (_ & _ & Htyped & _ & _ & _ & Hpopular).
  split.
  - apply (Htyped 0). reflexivity.
  - apply (Hpopular
             _ (mkResponse true 200
                  (inr (VObject [("items", VArray [VString "a book"])])))
             (VObject [("items", VArray [VString "a book"])])
             (VArray [VString "a book"])); try reflexivity.
    intros r He Hq Ho Hm. rewrite He, Hq, Ho, Hm. reflexivity.
Defined.

(** ** The cover URL *)





(** ** The Search screen: stale results, debounce, blank input *)

(** Where a flag guards the callbacks, a result that arrives after the
    cleanup changes no cell: the effect of the Detail screen ... *)
Lemma detail_effect_discards_after_cleanup
      (r : Exc BookDetail.LookupResult) (s : BookDetail.State) :
  BookDetail.cancelled s = true ->
  BookDetail.hooks (BookDetail.effectSettled r s) = BookDetail.hooks s.
Proof.
  intros Hc. destruct s as [h m c n]. cbn in Hc. subst c.
  unfold BookDetail.effectSettled. cbn [BookDetail.inFlight].
  destruct (Nat.eqb n 0); [reflexivity |].
  destruct r; reflexivity.
Qed.

(** ... and the effect of the Search screen that loads the popular
    books. *)
Lemma popular_effect_discards_after_cleanup
      (r : Exc Search.PopularResult) (s : SearchScreen.State) :
  SearchScreen.cancelled s = true ->
  SearchScreen.popularSettled r s = s.
Proof.
  intros Hc. destruct s as [h m t c n cs p]. cbn in Hc. subst c.
  unfold SearchScreen.popularSettled. destruct r; reflexivity.
Qed.

(** [fetchBooks] has no such flag: when the [fetch] of a call settles
    with a list of items, that list goes into [books] and [loading] is
    switched off, whatever [query] holds by then. *)
Lemma search_result_applied_unconditionally
      (id : nat) (answer : FetchOutcome) (items : Value)
      (s : SearchScreen.State) :
  SearchScreen.mounted s = true ->
  existsb (Nat.eqb id) (SearchScreen.pending s) = true ->
  Search.readItems answer = inr items ->
  SearchScreen.books
    (SearchScreen.hooks (SearchScreen.fetchBooksSettled id answer s)) = items
  /\ SearchScreen.loading
       (SearchScreen.hooks (SearchScreen.fetchBooksSettled id answer s))
     = false.
Proof.
  intros Hm Hp Hr. destruct s as [h m t c n cs p].
  cbn in Hm, Hp. subst m.
  unfold SearchScreen.fetchBooksSettled, SearchScreen.set.
  cbn -[Search.readItems]. rewrite Hp. cbn -[Search.readItems].
  rewrite Hr. split; reflexivity.
Qed.

(** C1.  On the Search screen the result of a superseded call is applied:
    after [staleSession] the query is "ab", its call (call 1) is still
    pending and [loading] is on; when the call for "a" (call 0) then
    settles, its volume goes into [books] and [loading] goes off, although
    "a" is no longer the query. *)
Theorem C1_stale_search_result_applied :
  let before := SearchScreen.run None staleSession (SearchScreen.mount 0) in
  let after := SearchScreen.fetchBooksSettled 0 answerForA before in
  map SearchScreen.arg (SearchScreen.calls before) = ["a"; "ab"]
  /\ SearchScreen.pending before = [0; 1]
  /\ SearchScreen.mounted before = true
  /\ SearchScreen.query (SearchScreen.hooks before) = "ab"
  /\ SearchScreen.books (SearchScreen.hooks before) = VArray []
  /\ SearchScreen.loading (SearchScreen.hooks before) = true
  /\ SearchScreen.query (SearchScreen.hooks after) = "ab"
  /\ SearchScreen.pending after = [1]
  /\ SearchScreen.books (SearchScreen.hooks after) = VArray [volumeForA]
  /\ SearchScreen.loading (SearchScreen.hooks after) = false.
Proof.
  cbv zeta. vm_compute. repeat split.
Qed.

Lemma step_idleBlank key s e :
  idleBlank s ->
  match e with
  | SearchScreen.ChangeText text => blank text
  | _ => true
  end = true ->
  idleBlank (SearchScreen.step key s e).
Proof.
  destruct s as [[q b pb l lp ep es] m t c n cs p].
  unfold idleBlank. cbn. intros (-> & -> & -> & Hq & ->) He.
  destruct e as [text | dt | id answer | r | |]; cbn.
  - unfold SearchScreen.changeText. cbn.
    destruct m; cbn; [| repeat split; assumption].
    destruct (text =? q); cbn; [repeat split; assumption |].
    unfold SearchScreen.debounceEffect, SearchScreen.set. cbn.
    unfold blank in He. rewrite He. cbn. repeat split. exact He.
  - unfold SearchScreen.elapse. cbn. repeat split. exact Hq.
  - unfold SearchScreen.fetchBooksSettled. cbn. repeat split. exact Hq.
  - unfold SearchScreen.popularSettled, SearchScreen.set.
    destruct r, c, m; cbn; repeat split; exact Hq.
  - unfold SearchScreen.pressRetry. cbn.
    unfold blank in Hq. apply negb_true_iff in Hq. rewrite Hq.
    rewrite andb_false_r. cbn. repeat split.
    unfold blank. rewrite Hq. reflexivity.
  - repeat split. exact Hq.
Qed.

Lemma run_idleBlank key events :
  forall s,
    idleBlank s -> onlyBlankInput events = true ->
    idleBlank (SearchScreen.run key events s).
Proof.
  induction events as [| e events IH]; intros s Hs Hb; [exact Hs |].
  cbn in Hb. apply andb_prop in Hb. destruct Hb as [He Hb].
  cbn [SearchScreen.run fold_left]. apply IH; [| exact Hb].
  apply step_idleBlank; assumption.
Qed.

Lemma step_noBlankCall key s e :
  noBlankCall s -> noBlankCall (SearchScreen.step key s e).
Proof.
  destruct s as [[q b pb l lp ep es] m t c n cs p].
  unfold noBlankCall. cbn. intros [Hcs Ht].
  destruct e as [text | dt | id answer | r | |]; cbn.
  - unfold SearchScreen.changeText. cbn.
    destruct m; cbn; [| split; assumption].
    destruct (text =? q); cbn; [split; assumption |].
    unfold SearchScreen.debounceEffect, SearchScreen.set. cbn.
    destruct (negb (truthy (trim text))) eqn:Hb; cbn; split; auto.
  - unfold SearchScreen.elapse. cbn.
    destruct t as [[due q'] |]; cbn; [| split; assumption].
    destruct (Nat.leb due (n + dt)); cbn; [| split; assumption].
    rewrite fetchBooks_calls, fetchBooks_timer. cbn. split; [| exact I].
    apply Forall_app. split; [exact Hcs |].
    constructor; [exact Ht | constructor].
  - unfold SearchScreen.fetchBooksSettled. cbn.
    destruct (negb (existsb (Nat.eqb id) p)); cbn; [split; assumption |].
    destruct (Search.readItems answer); unfold SearchScreen.set;
      destruct m; cbn; split; assumption.
  - unfold SearchScreen.popularSettled, SearchScreen.set.
    destruct r, c, m; cbn; split; assumption.
  - unfold SearchScreen.pressRetry. cbn.
    destruct (truthy (trim q)) eqn:Hq;
      [| rewrite !andb_false_r; cbn; split; assumption].
    match goal with |- context [if ?g then _ else _] => destruct g end;
      [| cbn; split; assumption].
    rewrite fetchBooks_calls. cbn. split.
    + apply Forall_app. split; [exact Hcs |].
      constructor; [| constructor].
      cbn. unfold blank. rewrite Hq. reflexivity.
    + rewrite fetchBooks_timer. exact Ht.
  - split; [exact Hcs | exact I].
Qed.

Lemma run_noBlankCall key events :
  forall s, noBlankCall s -> noBlankCall (SearchScreen.run key events s).
Proof.
  induction events as [| e events IH]; intros s Hs; [exact Hs |].
  cbn [SearchScreen.run fold_left]. apply IH, step_noBlankCall, Hs.
Qed.

(** C8.  (1) A change of the text to an empty or white-space-only value
    empties [books] at once, leaves no timeout pending and issues no
    call, however much time passes afterwards.  (2) A session that types
    nothing but such texts never issues a search call and keeps [books]
    empty.  (3) In every session, no search call carries such a text. *)
Theorem C8_blank_query_not_dispatched (key : option string) :
  (forall s text,
      SearchScreen.mounted s = true ->
      text <> SearchScreen.query (SearchScreen.hooks s) ->
      blank text = true ->
      let s' := SearchScreen.changeText text s in
      SearchScreen.books (SearchScreen.hooks s') = VArray []
      /\ SearchScreen.timer s' = None
      /\ SearchScreen.calls s' = SearchScreen.calls s
      /\ forall dt,
          SearchScreen.calls (SearchScreen.elapse key dt s')
          = SearchScreen.calls s)
  /\ (forall t0 events,
         onlyBlankInput events = true ->
         let s := SearchScreen.run key events (SearchScreen.mount t0) in
         SearchScreen.calls s = []
         /\ SearchScreen.books (SearchScreen.hooks s) = VArray [])
  /\ (forall t0 events c,
         In c (SearchScreen.calls
                 (SearchScreen.run key events (SearchScreen.mount t0))) ->
         blank (SearchScreen.arg c) = false).
Proof.
  split; [| split].
  - intros [[q b pb l lp ep es] m t c n cs p] text Hm Hne Hb.
    cbn in Hm, Hne. subst m.
    apply String.eqb_neq in Hne.
    cbv zeta. unfold SearchScreen.changeText. cbn. rewrite Hne.
    unfold SearchScreen.debounceEffect, SearchScreen.set. cbn.
    unfold blank in Hb. rewrite Hb. cbn. repeat split.
  - intros t0 events Hb. cbv zeta.
    assert (Hi : idleBlank (SearchScreen.run key events (SearchScreen.mount t0))).
    { apply run_idleBlank; [| exact Hb]. repeat split. }
    destruct Hi as (Hc & _ & _ & _ & Hbooks). split; assumption.
  - intros t0 events c Hin.
    assert (Hi : noBlankCall (SearchScreen.run key events (SearchScreen.mount t0))).
    { apply run_noBlankCall. split; [constructor | exact I]. }
    destruct Hi as [Hall _]. rewrite Forall_forall in Hall.
    apply Hall. exact Hin.
Qed.

Lemma C8_blank_query_not_dispatched_witness :
  let s := SearchScreen.run None
             [SearchScreen.ChangeText "  "; SearchScreen.Elapse 400;
              SearchScreen.ChangeText ""; SearchScreen.Elapse 1000]
             (SearchScreen.mount 0) in
  SearchScreen.calls s = []
  /\ SearchScreen.books (SearchScreen.hooks s) = VArray [].
Proof.
  apply (proj1 (proj2 (C8_blank_query_not_dispatched None)) 0).
  reflexivity.
Defined.

(** *** Debounce *)

Lemma keystroke_justTyped key prev s gap text :
  justTyped prev s ->
  gap < 400 \/ SearchScreen.timer s = None ->
  String.eqb text prev = false ->
  justTyped text (SearchScreen.changeText text (SearchScreen.elapse key gap s))
  /\ SearchScreen.now
       (SearchScreen.changeText text (SearchScreen.elapse key gap s))
     = SearchScreen.now s + gap.
Proof.
  destruct s as [[q b pb l lp ep es] m t c n cs p].
  unfold justTyped. cbn. intros (-> & -> & -> & Ht) Hgap Hne.
  assert (He : SearchScreen.elapse key gap
                 (SearchScreen.mkState
                    (SearchScreen.mkHooks prev b pb l lp ep es)
                    true t c n [] p)
               = SearchScreen.mkState
                   (SearchScreen.mkHooks prev b pb l lp ep es)
                   true t c (n + gap) [] p).
  { unfold SearchScreen.elapse. cbn.
    destruct (blank prev); subst t; [reflexivity |].
    destruct Hgap as [Hgap | Hnone]; [| discriminate Hnone].
    destruct (Nat.leb_spec (n + 400) (n + gap)); [lia | reflexivity]. }
  rewrite He. unfold SearchScreen.changeText. cbn. rewrite Hne.
  unfold SearchScreen.debounceEffect, SearchScreen.set. cbn.
  unfold blank. destruct (negb (truthy (trim text))); cbn; repeat split.
Qed.

Lemma typing_justTyped key ks :
  forall prev s,
    justTyped prev s ->
    match ks with
    | [] => True
    | k :: _ => fst k < 400 \/ SearchScreen.timer s = None
    end ->
    rapid ks = true ->
    changing prev ks = true ->
    justTyped (last (map snd ks) prev)
              (SearchScreen.run key (SearchScreen.typing ks) s)
    /\ SearchScreen.now (SearchScreen.run key (SearchScreen.typing ks) s)
       = SearchScreen.now s + list_sum (map fst ks).
Proof.
  induction ks as [| [gap text] ks IH]; intros prev s Hs Hfirst Hr Hc.
  - cbn. split; [exact Hs | lia].
  - cbn in Hfirst, Hc. apply andb_prop in Hc. destruct Hc as [Hne Hc].
    apply negb_true_iff in Hne.
    destruct (keystroke_justTyped key prev s gap text Hs Hfirst Hne)
      as [Hs' Hnow].
    cbn [SearchScreen.typing flat_map app SearchScreen.run fold_left
         SearchScreen.step fst snd].
    specialize (IH text
                   (SearchScreen.changeText text (SearchScreen.elapse key gap s))
                   Hs').
    assert (Hfirst' : match ks with
                      | [] => True
                      | k :: _ =>
                          fst k < 400
                          \/ SearchScreen.timer
                               (SearchScreen.changeText
                                  text (SearchScreen.elapse key gap s)) = None
                      end).
    { destruct ks as [| k ks']; [exact I |].
      left. unfold rapid in Hr. cbn in Hr.
      apply andb_prop in Hr. destruct Hr as [Hk _].
      apply Nat.ltb_lt. exact Hk. }
    assert (Hr' : rapid ks = true).
    { destruct ks as [| k ks']; [reflexivity |].
      unfold rapid in *. cbn in Hr |- *.
      apply andb_prop in Hr. destruct Hr as [_ Hr]. exact Hr. }
    destruct (IH Hfirst' Hr' Hc) as [Hfinal Hnow'].
    unfold SearchScreen.run, SearchScreen.typing in Hfinal, Hnow'.
    split.
    + replace (last (map snd ((gap, text) :: ks)) prev)
        with (last (map snd ks) text); [exact Hfinal |].
      destruct ks as [| k ks']; [reflexivity |].
      cbn [map snd]. symmetry.
      change (last (text :: snd k :: map snd ks') prev)
        with (last (snd k :: map snd ks') prev).
      clear. generalize (snd k) as a. generalize (map snd ks') as l.
      induction l as [| x l IHl]; intros a; [reflexivity |].
      change (last (a :: x :: l) prev) with (last (x :: l) prev).
      change (last (a :: x :: l) text) with (last (x :: l) text).
      apply IHl.
    + rewrite Hnow', Hnow. cbn [map fst].
      change (list_sum (gap :: map fst ks))
        with (gap + list_sum (map fst ks)).
      lia.
Qed.

(** C4, counterexample.  The text " " is not empty, yet the session that
    types it issues no call, however long it waits. *)
Lemma C4_counterexample :
  let ks : list SearchScreen.Keystroke := [(10, " ")] in
  finalText ks <> ""
  /\ rapid ks = true
  /\ changing "" ks = true
  /\ forall d,
      SearchScreen.calls
        (SearchScreen.run None (SearchScreen.typing ks ++ [SearchScreen.Elapse d])
                          (SearchScreen.mount 0)) = [].
Proof.
  cbv zeta. repeat split. discriminate.
Qed.

(** C4, amended.  In a session of keystrokes that each change the text
    and that follow one another by less than 400 time units, whose final
    text is not blank (not empty once trimmed): no search call is issued
    before 400 time units have passed since the last keystroke, and once
    they have passed exactly one call has been issued, at 400 time units
    after the last keystroke, with the final text as its argument and the
    request built from it. *)
Theorem C4_debounce_single_call
        (key : option string) (t0 : nat)
        (ks : list SearchScreen.Keystroke) (d : nat) :
  rapid ks = true ->
  changing "" ks = true ->
  blank (finalText ks) = false ->
  let s := SearchScreen.run key
             (SearchScreen.typing ks ++ [SearchScreen.Elapse d])
             (SearchScreen.mount t0) in
  (d < 400 -> SearchScreen.calls s = [])
  /\ (400 <= d ->
      SearchScreen.calls s
      = [SearchScreen.mkCall (lastKeystrokeAt t0 ks + 400) (finalText ks)
                             (Search.searchRequest key (finalText ks))]).
Proof.
  intros Hr Hc Hb. cbv zeta.
  assert (H0 : justTyped "" (SearchScreen.mount t0)) by (repeat split).
  assert (Hfirst : match ks with
                   | [] => True
                   | k :: _ => fst k < 400
                               \/ SearchScreen.timer (SearchScreen.mount t0)
                                  = None
                   end).
  { destruct ks; [exact I | right; reflexivity]. }
  destruct (typing_justTyped key ks "" (SearchScreen.mount t0)
                             H0 Hfirst Hr Hc) as [Hj Hnow].
  unfold SearchScreen.run in *. rewrite fold_left_app.
  cbn [fold_left SearchScreen.step].
  fold (finalText ks) in Hj.
  destruct (fold_left (SearchScreen.step key) (SearchScreen.typing ks)
                      (SearchScreen.mount t0))
    as [[q b pb l lp ep es] m t c n cs p].
  unfold justTyped in Hj. cbn in Hj, Hnow.
  destruct Hj as (-> & -> & -> & ->). rewrite Hb.
  unfold lastKeystrokeAt. rewrite <- Hnow.
  unfold SearchScreen.elapse. cbn. split.
  - intros Hd. destruct (Nat.leb_spec (n + 400) (n + d)); [lia | reflexivity].
  - intros Hd. destruct (Nat.leb_spec (n + 400) (n + d)); [| lia].
    cbn. rewrite fetchBooks_calls. reflexivity.
Qed.

Lemma C4_debounce_single_call_witness :
  SearchScreen.calls
    (SearchScreen.run None
       (SearchScreen.typing [(25, "h"); (120, "ho"); (399, "hob"); (80, "hobb ")]
          ++ [SearchScreen.Elapse 400])
       (SearchScreen.mount 0))
  = [SearchScreen.mkCall 1024 "hobb "
       (mkRequest "https://www.googleapis.com/books/v1/volumes"
                  [("q", "hobb"); ("maxResults", "20")])].
Proof.
  apply (C4_debounce_single_call
           None 0 [(25, "h"); (120, "ho"); (399, "hob"); (80, "hobb ")] 400).
  - reflexivity.
  - reflexivity.
  - reflexivity.
  - lia.
Defined.

(* ===================================================================== *)
(** * Further properties of the code                                     *)
(* ===================================================================== *)

(** ** Requests and responses *)

(** X1.  The [items] of a successful response are handed on as they
    are, without any check of their shape: whatever value other than
    [null] and [undefined] the body has under [items] becomes the [data]
    of [fetchPopularBooks] and the [books] of the Search screen. *)
Theorem items_passed_verbatim (res : Response) (body items : Value) :
  ok res = true ->
  json res = inr body ->
  getMember body "items" = inr items ->
  items <> VUndefined -> items <> VNull ->
  (forall key fetch,
      fetch (Search.popularRequest key) = inr res ->
      Search.fetchPopularBooks key fetch
        = inr {| Search.data := items; Search.error := None |})
  /\ (forall key q s,
         SearchScreen.mounted s = true ->
         SearchScreen.books
           (SearchScreen.hooks
              (SearchScreen.fetchBooksSettled
                 (List.length (SearchScreen.calls s)) (inr res)
                 (SearchScreen.fetchBooks key q s)))
         = items).
Proof.
  intros Hok Hj Hitems Hu Hn.
  assert (Hc : coalesce items (VArray []) = items).
  { destruct items; try reflexivity; contradiction. }
  pose proof (readItems_items res body items Hok Hj Hitems) as Hr.
  rewrite Hc in Hr. split.
  - intros key fetch Hf. rewrite fetchPopularBooks_cases, Hf, Hr.
    reflexivity.
  - intros key q [h m t c n cs p] Hm. cbn in Hm. subst m.
    cbn [SearchScreen.calls]. rewrite fetchBooks_mounted.
    rewrite (fetchBooksSettled_mounted _ _ _ _ _ _ _ _
               (issued_call_pending p (List.length cs))).
    rewrite Hr. reflexivity.
Qed.

Lemma items_passed_verbatim_witness :
  Search.fetchPopularBooks None
    (fun _ => inr (mkResponse true 200
                     (inr (VObject [("items", VString "not a list")]))))
  = inr {| Search.data := VString "not a list"; Search.error := None |}.
Proof.
  apply (items_passed_verbatim
           (mkResponse true 200
              (inr (VObject [("items", VString "not a list")])))
           (VObject [("items", VString "not a list")])
           (VString "not a list")); try reflexivity; discriminate.
Defined.

Lemma paramsGet_keyParam (key : option string) :
  paramsGet (Search.keyParam key) "key" = expectedKey key.
Proof.
  unfold Search.keyParam, expectedKey.
  destruct key as [k |]; [| reflexivity].
  destruct (truthy k); reflexivity.
Qed.

(** X2.  The API key: an unset or empty key adds no [key] parameter to
    the search, the popular and the lookup request, and a non-empty key
    is sent as it is; the lookup request has no other parameter. *)
Theorem api_key_parameter (key : option string) (q id : string) :
  paramsGet (searchParams (Search.searchRequest key q)) "key"
    = expectedKey key
  /\ paramsGet (searchParams (Search.popularRequest key)) "key"
    = expectedKey key
  /\ paramsGet (searchParams (BookDetail.lookupRequest key id)) "key"
    = expectedKey key
  /\ searchParams (BookDetail.lookupRequest key id)
    = match expectedKey key with
      | Some k => [("key", k)]
      | None => []
      end.
Proof.
  repeat split.
  - cbn. apply paramsGet_keyParam.
  - cbn. apply paramsGet_keyParam.
  - cbn. unfold BookDetail.lookupParams, expectedKey.
    destruct key as [k |]; [| reflexivity].
    destruct (truthy k); reflexivity.
  - cbn. unfold BookDetail.lookupParams, expectedKey.
    destruct key as [k |]; [| reflexivity].
    destruct (truthy k); reflexivity.
Qed.

Lemma other_statuses :
  forallb (classifiedAs "Something went wrong. Please try again."
                        "Something went wrong. Please try again.")
          (seq 100 300) = true.
Proof. vm_compute. reflexivity. Qed.

(** X3.  A response that is not [ok] with a status from 100 to 399 (a
    redirect that was not followed, say) matches no rule of either
    classifier and gets the generic message. *)
Theorem status_below_400_generic (s : nat) :
  100 <= s < 400 ->
  Search.getApiErrorMessage (apiError s)
    = "Something went wrong. Please try again."
  /\ BookDetail.getApiErrorMessage (apiError s)
    = "Something went wrong. Please try again.".
Proof.
  intros Hs. apply classifiedAs_spec.
  apply (interval_cases _ 100 300 other_statuses). lia.
Qed.

Lemma status_below_400_generic_witness :
  Search.getApiErrorMessage (apiError 304)
    = "Something went wrong. Please try again."
  /\ BookDetail.getApiErrorMessage (apiError 304)
    = "Something went wrong. Please try again.".
Proof. apply (status_below_400_generic 304). lia. Defined.

(** ** [encodeURIComponent] *)

Lemma chars_app (a b : string) :
  list_ascii_of_string (a ++ b)
  = (list_ascii_of_string a ++ list_ascii_of_string b)%list.
Proof.
  induction a as [| c a IH]; [reflexivity |].
  cbn. rewrite IH. reflexivity.
Qed.

Lemma encodeUnit_urlSafe (c : ascii) :
  forallb urlSafe (list_ascii_of_string (BookDetail.encodeUnit c)) = true.
Proof.
  destruct c as [[|] [|] [|] [|] [|] [|] [|] [|]]; vm_compute; reflexivity.
Qed.

Lemma encodeUnit_unreserved (c : ascii) :
  BookDetail.unreserved (nat_of_ascii c) = true ->
  BookDetail.encodeUnit c = String c EmptyString.
Proof.
  intros Hc. unfold BookDetail.encodeUnit. rewrite Hc. reflexivity.
Qed.

Lemma encodeURIComponent_urlSafe (s : string) :
  forallb urlSafe (list_ascii_of_string (BookDetail.encodeURIComponent s))
  = true.
Proof.
  induction s as [| c s IH]; [reflexivity |].
  cbn [BookDetail.encodeURIComponent]. rewrite chars_app, forallb_app.
  rewrite encodeUnit_urlSafe, IH. reflexivity.
Qed.

Lemma encodeURIComponent_unreserved (s : string) :
  forallb (fun c => BookDetail.unreserved (nat_of_ascii c))
          (list_ascii_of_string s) = true ->
  BookDetail.encodeURIComponent s = s.
Proof.
  induction s as [| c s IH]; [reflexivity |].
  cbn [list_ascii_of_string forallb BookDetail.encodeURIComponent].
  intros H. apply andb_prop in H. destruct H as [Hc Hs].
  rewrite (encodeUnit_unreserved c Hc), (IH Hs). reflexivity.
Qed.

(** X4.  The identifier of a book enters the lookup URL and the route
    of the Detail screen as one path segment: what follows the last [/]
    of the fixed part holds nothing but letters, digits, the marks
    [- _ . ! ~ * ' ( )] and escapes [%XX], so no [/], [?], [#] or [&] of
    an identifier gets through.  An identifier made of unreserved
    characters only is passed as it is. *)
Theorem identifier_is_one_path_segment (key : option string) (b : Types.Book) :
  exists segment,
    endpoint (BookDetail.lookupRequest key (Types.id b))
      = "https://www.googleapis.com/books/v1/volumes/" ++ segment
    /\ SearchView.bookRoute b = "/book/" ++ segment
    /\ (forall c,
           In c (list_ascii_of_string segment) ->
           urlSafe c = true
           /\ c <> "/"%char /\ c <> "?"%char /\ c <> "#"%char
           /\ c <> "&"%char)
    /\ (forallb (fun c => BookDetail.unreserved (nat_of_ascii c))
                (list_ascii_of_string (Types.id b)) = true ->
        segment = Types.id b).
Proof.
  exists (BookDetail.encodeURIComponent (Types.id b)).
  split; [reflexivity |]. split; [reflexivity |]. split.
  - intros c Hin.
    pose proof (encodeURIComponent_urlSafe (Types.id b)) as Hsafe.
    rewrite forallb_forall in Hsafe. specialize (Hsafe c Hin).
    split; [exact Hsafe |].
    repeat split; intros ->; vm_compute in Hsafe; discriminate.
  - apply encodeURIComponent_unreserved.
Qed.

Lemma identifier_is_one_path_segment_witness :
  exists segment,
    SearchView.bookRoute
      (Types.mkBook "a/b?c" (Types.mkBookVolumeInfo "T" None None None))
    = "/book/" ++ segment
    /\ forall c, In c (list_ascii_of_string segment) -> c <> "/"%char.
Proof.
  destruct (identifier_is_one_path_segment
              None
              (Types.mkBook "a/b?c" (Types.mkBookVolumeInfo "T" None None None)))
    as (segment & _ & Hroute & Hsafe & _).
  exists segment. split; [exact Hroute |].
  intros c Hin. apply (Hsafe c Hin).
Defined.

Lemma decodeUnit_encodeUnit (c : ascii) (rest : string) :
  decodeUnit (BookDetail.encodeUnit c ++ rest) = Some (c, rest).
Proof.
  destruct c as [[|] [|] [|] [|] [|] [|] [|] [|]]; reflexivity.
Qed.

Lemma encodeURIComponent_injective (s t : string) :
  BookDetail.encodeURIComponent s = BookDetail.encodeURIComponent t ->
  s = t.
Proof.
  revert t. induction s as [| c s IH]; intros [| d t] H.
  - reflexivity.
  - exfalso. cbn [BookDetail.encodeURIComponent] in H.
    apply (f_equal decodeUnit) in H.
    rewrite decodeUnit_encodeUnit in H. discriminate H.
  - exfalso. cbn [BookDetail.encodeURIComponent] in H.
    apply (f_equal decodeUnit) in H.
    rewrite decodeUnit_encodeUnit in H. discriminate H.
  - cbn [BookDetail.encodeURIComponent] in H.
    apply (f_equal decodeUnit) in H.
    rewrite !decodeUnit_encodeUnit in H.
    injection H as -> H. f_equal. apply IH, H.
Qed.

Lemma string_app_inv_head (a x y : string) : a ++ x = a ++ y -> x = y.
Proof.
  induction a as [| c a IH]; intros H; [exact H |].
  cbn in H. injection H as H. apply IH, H.
Qed.

(** X5.  Two books with different identifiers never share a lookup URL
    or a route: the escaping of the identifier loses nothing. *)
Theorem distinct_ids_distinct_urls (key : option string) (b b' : Types.Book) :
  (endpoint (BookDetail.lookupRequest key (Types.id b))
   = endpoint (BookDetail.lookupRequest key (Types.id b')) ->
   Types.id b = Types.id b')
  /\ (SearchView.bookRoute b = SearchView.bookRoute b' ->
      Types.id b = Types.id b').
Proof.
  split; intros H; apply encodeURIComponent_injective.
  - cbn [BookDetail.lookupRequest endpoint] in H.
    apply string_app_inv_head in H. apply (string_app_inv_head "/"), H.
  - unfold SearchView.bookRoute in H.
    apply (string_app_inv_head "/book/"), H.
Qed.

Lemma distinct_ids_distinct_urls_witness :
  let b := Types.mkBook "a b" (Types.mkBookVolumeInfo "T" None None None) in
  Types.id b = "a b".
Proof.
  intros b.
  apply (proj2 (distinct_ids_distinct_urls
                  None b
                  (Types.mkBook "a b" (Types.mkBookVolumeInfo
                                         "Another" None None None)))).
  reflexivity.
Defined.

(** ** The query of a search request *)

Lemma trimStart_first (s : string) : notWhite (firstUnit (trimStart s)).
Proof.
  induction s as [| c s IH]; [exact I |].
  cbn [trimStart]. destruct (isWhiteSpace c) eqn:Hc; [exact IH | exact Hc].
Qed.

Lemma trimEnd_first (s : string) :
  notWhite (firstUnit s) -> firstUnit (trimEnd s) = firstUnit s.
Proof.
  destruct s as [| c s]; [reflexivity |].
  cbn [firstUnit notWhite trimEnd]. intros Hc. rewrite Hc.
  destruct (trimEnd s); reflexivity.
Qed.

Lemma trimEnd_last (s : string) : notWhite (lastUnit (trimEnd s)).
Proof.
  induction s as [| c s IH]; [exact I |].
  cbn [trimEnd]. destruct (trimEnd s) as [| d kept] eqn:Hk.
  - destruct (isWhiteSpace c) eqn:Hc; [exact I | exact Hc].
  - cbn [lastUnit] in IH |- *.
    destruct (lastUnit kept); exact IH.
Qed.

Lemma trim_clean (s : string) :
  notWhite (firstUnit (trim s)) /\ notWhite (lastUnit (trim s)).
Proof.
  unfold trim. split; [| apply trimEnd_last].
  rewrite trimEnd_first; apply trimStart_first.
Qed.

(** X6.  Whatever the user does, every search request that the screen
    sends has a query [q] that is not empty and has no white space at
    its start or at its end. *)
Theorem search_query_clean
        (key : option string) (t0 : nat) (events : list SearchScreen.Event)
        (c : SearchScreen.Call) :
  In c (SearchScreen.calls
          (SearchScreen.run key events (SearchScreen.mount t0))) ->
  exists q,
    paramsGet (searchParams (SearchScreen.request c)) "q" = Some q
    /\ q <> ""
    /\ notWhite (firstUnit q) /\ notWhite (lastUnit q).
Proof.
  intros Hin.
  assert (Hw : wellFormedCall key c).
  { pose proof (run_calls_wellFormed key events (SearchScreen.mount t0)
                                     (Forall_nil _)) as Hall.
    rewrite Forall_forall in Hall. apply Hall, Hin. }
  assert (Hb : blank (SearchScreen.arg c) = false).
  { assert (Hi : noBlankCall
                   (SearchScreen.run key events (SearchScreen.mount t0))).
    { apply run_noBlankCall. split; [constructor | exact I]. }
    destruct Hi as [Hall _]. rewrite Forall_forall in Hall.
    apply Hall, Hin. }
  exists (trim (SearchScreen.arg c)). unfold wellFormedCall in Hw.
  rewrite Hw. split; [reflexivity |]. split.
  - unfold blank in Hb. apply negb_false_iff in Hb.
    intros Hq. rewrite Hq in Hb. discriminate Hb.
  - apply trim_clean.
Qed.

Lemma search_query_clean_witness :
  exists q,
    paramsGet
      (searchParams
         (Search.searchRequest None "  the hobbit ")) "q" = Some q
    /\ q <> ""
    /\ notWhite (firstUnit q) /\ notWhite (lastUnit q).
Proof.
  apply (search_query_clean
           None 0
           [SearchScreen.ChangeText "  the hobbit "; SearchScreen.Elapse 400]
           (SearchScreen.mkCall 400 "  the hobbit "
                                (Search.searchRequest None "  the hobbit "))).
  left. reflexivity.
Defined.

(** ** Debounce, for any rhythm of typing *)

Lemma keystroke_typedAfter key prev s gap text :
  typedAfter prev s ->
  String.eqb text prev = false ->
  let s' := SearchScreen.changeText text (SearchScreen.elapse key gap s) in
  typedAfter text s'
  /\ SearchScreen.now s' = SearchScreen.now s + gap
  /\ SearchScreen.calls s'
     = (SearchScreen.calls s ++ fired key prev (SearchScreen.now s) gap)%list.
Proof.
  destruct s as [h m t c n cs p].
  unfold typedAfter.
  cbn [SearchScreen.mounted SearchScreen.hooks SearchScreen.timer
       SearchScreen.now SearchScreen.calls].
  intros (-> & Hq & ->) Hne. cbv zeta. unfold fired.
  destruct (blank prev); cbn [negb andb].
  - rewrite elapse_idle, changeText_mounted by (rewrite Hq; exact Hne).
    rewrite app_nil_r. unfold blank.
    destruct (negb (truthy (trim text))); repeat split.
  - destruct (Nat.leb 400 gap) eqn:Hg.
    + rewrite elapse_due by (rewrite leb_shift; exact Hg).
      rewrite changeText_mounted by (cbn; rewrite Hq; exact Hne).
      unfold blank.
      destruct (negb (truthy (trim text))); repeat split.
    + rewrite elapse_early by (rewrite leb_shift; exact Hg).
      rewrite changeText_mounted by (rewrite Hq; exact Hne).
      rewrite app_nil_r. unfold blank.
      destruct (negb (truthy (trim text))); repeat split.
Qed.

Lemma wait_typedAfter key prev s d :
  typedAfter prev s ->
  SearchScreen.calls (SearchScreen.elapse key d s)
  = (SearchScreen.calls s ++ fired key prev (SearchScreen.now s) d)%list.
Proof.
  destruct s as [h m t c n cs p].
  unfold typedAfter.
  cbn [SearchScreen.mounted SearchScreen.hooks SearchScreen.timer
       SearchScreen.now SearchScreen.calls].
  intros (-> & Hq & ->). unfold fired.
  destruct (blank prev); cbn [negb andb].
  - rewrite elapse_idle, app_nil_r. reflexivity.
  - destruct (Nat.leb 400 d) eqn:Hd.
    + rewrite elapse_due by (rewrite leb_shift; exact Hd). reflexivity.
    + rewrite elapse_early by (rewrite leb_shift; exact Hd).
      rewrite app_nil_r. reflexivity.
Qed.

Lemma typing_calls key d ks :
  forall prev s,
    typedAfter prev s ->
    changing prev ks = true ->
    SearchScreen.calls
      (SearchScreen.run key (SearchScreen.typing ks ++ [SearchScreen.Elapse d]) s)
    = (SearchScreen.calls s
         ++ fired key prev (SearchScreen.now s)
                  (match ks with
                   | [] => d
                   | k :: _ => fst k
                   end)
         ++ expectedCalls key (SearchScreen.now s) ks d)%list.
Proof.
  induction ks as [| [gap text] ks IH]; intros prev s Hs Hc.
  - cbn. rewrite app_nil_r. apply wait_typedAfter, Hs.
  - cbn in Hc. apply andb_prop in Hc. destruct Hc as [Hne Hc].
    apply negb_true_iff in Hne.
    destruct (keystroke_typedAfter key prev s gap text Hs Hne)
      as (Hs' & Hnow & Hcalls).
    cbn [SearchScreen.typing flat_map app SearchScreen.run fold_left
         SearchScreen.step fst snd].
    specialize (IH text _ Hs' Hc).
    unfold SearchScreen.run, SearchScreen.typing in IH.
    rewrite IH, Hcalls, Hnow.
    cbn [expectedCalls fst snd]. rewrite <- !app_assoc. reflexivity.
Qed.

(** X7.  The calls of a typing session, whatever its rhythm: when every
    keystroke changes the text, the screen issues one search call for
    each keystroke that leaves a non-blank text and is followed by 400
    time units or more without another keystroke, at 400 time units
    after that keystroke and with its text, and no other call.  (A
    keystroke that falls exactly 400 time units after the one before it
    is left aside.) *)
Theorem debounce_calls
        (key : option string) (t0 : nat)
        (ks : list SearchScreen.Keystroke) (d : nat) :
  changing "" ks = true ->
  noTie ks = true ->
  SearchScreen.calls
    (SearchScreen.run key (SearchScreen.typing ks ++ [SearchScreen.Elapse d])
                      (SearchScreen.mount t0))
  = expectedCalls key t0 ks d.
Proof.
  intros Hc _.
  assert (H0 : typedAfter "" (SearchScreen.mount t0)) by (repeat split).
  rewrite (typing_calls key d ks "" (SearchScreen.mount t0) H0 Hc).
  reflexivity.
Qed.

Lemma debounce_calls_witness :
  SearchScreen.calls
    (SearchScreen.run None
       (SearchScreen.typing [(0, "d"); (500, "du"); (100, "dun"); (700, "dune")]
          ++ [SearchScreen.Elapse 1000])
       (SearchScreen.mount 0))
  = [SearchScreen.mkCall 400 "d" (Search.searchRequest None "d");
     SearchScreen.mkCall 1000 "dun" (Search.searchRequest None "dun");
     SearchScreen.mkCall 1700 "dune" (Search.searchRequest None "dune")].
Proof.
  apply (debounce_calls
           None 0 [(0, "d"); (500, "du"); (100, "dun"); (700, "dune")] 1000);
    reflexivity.
Defined.

(** ** What the Search screen shows *)

Lemma step_loaderBacked key s e :
  loaderBacked s -> loaderBacked (SearchScreen.step key s e).
Proof.
  destruct s as [[q b pb l lp ep es] m t c n cs p].
  unfold loaderBacked. cbn. intros Hs.
  destruct e as [text | dt | id answer | r | |]; cbn.
  - unfold SearchScreen.changeText. cbn.
    destruct m; cbn; [| exact Hs].
    destruct (text =? q); cbn; [exact Hs |].
    unfold SearchScreen.debounceEffect, SearchScreen.set. cbn.
    destruct (negb (truthy (trim text))); cbn; exact Hs.
  - unfold SearchScreen.elapse. cbn.
    destruct t as [[due q'] |]; cbn; [| exact Hs].
    destruct (Nat.leb due (n + dt)); cbn; [| exact Hs].
    unfold SearchScreen.fetchBooks, SearchScreen.set.
    destruct m; cbn; intros _ _ H; destruct p; discriminate H.
  - unfold SearchScreen.fetchBooksSettled. cbn.
    destruct (negb (existsb (Nat.eqb id) p)); cbn; [exact Hs |].
    destruct (Search.readItems answer); unfold SearchScreen.set;
      destruct m; cbn; intros; discriminate.
  - unfold SearchScreen.popularSettled, SearchScreen.set.
    destruct r, c, m; cbn; exact Hs.
  - unfold SearchScreen.pressRetry. cbn.
    match goal with |- context [if ?g then _ else _] => destruct g end;
      [| exact Hs].
    unfold SearchScreen.fetchBooks, SearchScreen.set.
    destruct m; cbn; intros _ _ H; destruct p; discriminate H.
  - intros H. discriminate H.
Qed.

(** X8.  The loader of the search never stays without cause: in every
    state that a mounted screen can reach, [loading] on means that the
    [fetch] of at least one search call has not settled yet. *)
Theorem loader_has_request_in_flight
        (key : option string) (t0 : nat) (events : list SearchScreen.Event) :
  let s := SearchScreen.run key events (SearchScreen.mount t0) in
  SearchScreen.mounted s = true ->
  SearchScreen.loading (SearchScreen.hooks s) = true ->
  SearchScreen.pending s <> [].
Proof.
  cbv zeta.
  assert (H : forall s, loaderBacked s ->
                        loaderBacked (SearchScreen.run key events s)).
  { induction events as [| e events IH]; intros s Hs; [exact Hs |].
    cbn [SearchScreen.run fold_left]. apply IH, step_loaderBacked, Hs. }
  apply H. intros _ Hl. discriminate Hl.
Qed.

Lemma loader_has_request_in_flight_witness :
  SearchScreen.pending
    (SearchScreen.run None
       [SearchScreen.ChangeText "dune"; SearchScreen.Elapse 400]
       (SearchScreen.mount 0)) <> [].
Proof.
  apply (loader_has_request_in_flight
           None 0 [SearchScreen.ChangeText "dune"; SearchScreen.Elapse 400]);
    reflexivity.
Defined.

(** X9.  The text changes to a non-blank value while no search is
    loading and the result list is empty: at once, before any search for
    the new text has been made, the screen shows the error of the last
    failed search if there is one, and otherwise "No results found" for
    the new text. *)
Theorem empty_state_shown_before_search
        (s : SearchScreen.State) (text : string) :
  SearchScreen.mounted s = true ->
  SearchScreen.loading (SearchScreen.hooks s) = false ->
  SearchScreen.books (SearchScreen.hooks s) = VArray [] ->
  blank text = false ->
  text <> SearchScreen.query (SearchScreen.hooks s) ->
  let s' := SearchScreen.changeText text s in
  SearchScreen.calls s' = SearchScreen.calls s
  /\ SearchView.body (SearchScreen.hooks s')
     = match SearchScreen.errorSearch (SearchScreen.hooks s) with
       | Some message =>
           if truthy message then SearchView.SearchError message
           else SearchView.NoResults text
       | None => SearchView.NoResults text
       end.
Proof.
  destruct s as [[q b pb l lp ep es] m t c n cs p].
  cbn. intros -> -> -> Hb Hne.
  apply String.eqb_neq in Hne.
  unfold SearchScreen.changeText. cbn. rewrite Hne.
  unfold SearchScreen.debounceEffect, SearchScreen.set. cbn.
  unfold blank in Hb. rewrite Hb. cbn.
  split; [reflexivity |].
  unfold SearchView.body. cbn.
  apply negb_false_iff in Hb. rewrite Hb. reflexivity.
Qed.

Lemma empty_state_shown_before_search_witness :
  SearchView.body
    (SearchScreen.hooks
       (SearchScreen.changeText "dune" (SearchScreen.mount 0)))
  = SearchView.NoResults "dune".
Proof.
  apply (empty_state_shown_before_search (SearchScreen.mount 0) "dune");
    try reflexivity.
  discriminate.
Defined.

Lemma search_message_truthy (e : Thrown) :
  truthy (Search.getApiErrorMessage e) = true.
Proof.
  pose proof (search_message_classified e) as Hin.
  unfold searchMessages in Hin. cbn [In] in Hin.
  repeat (destruct Hin as [<- | Hin]; [reflexivity |]).
  contradiction.
Qed.


(** X10.  A search from its start to its failure: while the request is
    in flight the screen shows the loader; when the [try] block of
    [fetchBooks] throws, the result list is emptied, the loader goes, and
    under a non-blank query the screen shows the classifier's message for
    the exception (with its "Try again" button). *)
Theorem failed_search_shows_classified_error
        (key : option string) (q : string) (s : SearchScreen.State)
        (answer : FetchOutcome) (e : Thrown) :
  SearchScreen.mounted s = true ->
  Search.readItems answer = inl e ->
  let started := SearchScreen.fetchBooks key q s in
  let s' := SearchScreen.fetchBooksSettled
              (List.length (SearchScreen.calls s)) answer started in
  SearchView.body (SearchScreen.hooks started) = SearchView.Loader
  /\ SearchScreen.errorSearch (SearchScreen.hooks started) = None
  /\ SearchScreen.books (SearchScreen.hooks s') = VArray []
  /\ SearchScreen.loading (SearchScreen.hooks s') = false
  /\ SearchScreen.errorSearch (SearchScreen.hooks s')
     = Some (Search.getApiErrorMessage e)
  /\ (blank (SearchScreen.query (SearchScreen.hooks s)) = false ->
      SearchView.body (SearchScreen.hooks s')
      = SearchView.SearchError (Search.getApiErrorMessage e)).
Proof.
  destruct s as [[qq b pb l lp ep es] m t c n cs p].
  cbn [SearchScreen.mounted SearchScreen.hooks SearchScreen.query
       SearchScreen.calls].
  intros -> Hr. cbv zeta.
  rewrite fetchBooks_mounted.
  rewrite (fetchBooksSettled_mounted _ _ _ _ _ _ _ _
             (issued_call_pending p (List.length cs))).
  rewrite Hr. cbn [SearchScreen.hooks].
  repeat split.
  intros Hb. unfold SearchView.body. cbn.
  unfold blank in Hb. apply negb_false_iff in Hb. rewrite Hb.
  rewrite search_message_truthy. reflexivity.
Qed.

Lemma failed_search_shows_classified_error_witness :
  let s := SearchScreen.changeText "dune" (SearchScreen.mount 0) in
  SearchView.body
    (SearchScreen.hooks
       (SearchScreen.fetchBooksSettled
          0 (inr (mkResponse false 429 (inr VNull)))
          (SearchScreen.fetchBooks None "dune" s)))
  = SearchView.SearchError "Too many requests. Please try again in a moment.".
Proof.
  intros s.
  apply (failed_search_shows_classified_error
           None "dune" s (inr (mkResponse false 429 (inr VNull)))
           (apiError 429)); reflexivity.
Defined.

(** X11.  The popular list from mount to display: once the promise of
    the mount effect has settled, the loader of the popular list is
    gone, and the screen shows the classifier's message when the [try]
    block of [fetchPopularBooks] threw and otherwise the list of the
    items.  The "Try again" button brings the loader back and ends the
    same way. *)
Theorem popular_list_outcome
        (key : option string) (fetch : Request -> FetchOutcome) :
  let shown :=
    match Search.readItems (fetch (Search.popularRequest key)) with
    | inl e => SearchView.PopularError (Search.getApiErrorMessage e)
    | inr items => SearchView.PopularList items
    end in
  (forall t0,
      SearchView.body (SearchScreen.hooks (SearchScreen.mount t0))
        = SearchView.Loader
      /\ SearchView.body
           (SearchScreen.hooks
              (SearchScreen.popularSettled
                 (Search.fetchPopularBooks key fetch)
                 (SearchScreen.mount t0)))
         = shown)
  /\ (forall s,
         SearchScreen.mounted s = true ->
         SearchScreen.loading (SearchScreen.hooks s) = false ->
         blank (SearchScreen.query (SearchScreen.hooks s)) = true ->
         SearchView.body (SearchScreen.hooks (SearchView.loadPopularBooks s))
           = SearchView.Loader
         /\ SearchView.body
              (SearchScreen.hooks
                 (SearchView.loadPopularSettled
                    (Search.fetchPopularBooks key fetch)
                    (SearchView.loadPopularBooks s)))
            = shown).
Proof.
  cbv zeta. rewrite fetchPopularBooks_cases. split.
  - intros t0. split; [reflexivity |].
    destruct (Search.readItems (fetch (Search.popularRequest key)))
      as [e | items]; unfold SearchView.body; cbn.
    + rewrite search_message_truthy. reflexivity.
    + reflexivity.
  - intros [[q b pb l lp ep es] m t c n cs p]. cbn. intros -> -> Hb.
    unfold blank in Hb. apply negb_true_iff in Hb.
    unfold SearchView.loadPopularBooks, SearchView.loadPopularSettled,
      SearchScreen.set.
    cbn. split.
    + unfold SearchView.body. cbn. rewrite Hb. reflexivity.
    + destruct (Search.readItems (fetch (Search.popularRequest key)))
        as [e | items]; unfold SearchView.body; cbn; rewrite Hb.
      * rewrite search_message_truthy. reflexivity.
      * reflexivity.
Qed.

Lemma popular_list_outcome_witness :
  let fetch : Request -> FetchOutcome :=
    fun _ => inl (networkError "Failed to fetch") in
  let s := SearchScreen.popularSettled
             (Search.fetchPopularBooks None fetch) (SearchScreen.mount 0) in
  SearchView.body
    (SearchScreen.hooks
       (SearchView.loadPopularSettled
          (Search.fetchPopularBooks None fetch)
          (SearchView.loadPopularBooks s)))
  = SearchView.PopularError
      "Unable to connect. Check your internet connection and try again.".
Proof.
  intros fetch s.
  apply (proj2 (popular_list_outcome None fetch) s); reflexivity.
Defined.

(** X12.  A result that arrives after the cleanup of its effect is
    thrown away.  Unmounting sets the [cancelled] flag of the effect that
    loads the popular books and of the effect that loads the book of the
    Detail screen; with the flag set, the settling of the promise changes
    no state cell of either screen. *)
Theorem cancelled_effect_changes_nothing :
  (forall s, SearchScreen.cancelled (SearchScreen.unmount s) = true)
  /\ (forall s, BookDetail.cancelled (BookDetail.unmount s) = true)
  /\ (forall r s,
         SearchScreen.cancelled s = true ->
         SearchScreen.hooks (SearchScreen.popularSettled r s)
         = SearchScreen.hooks s)
  /\ (forall r s,
         BookDetail.cancelled s = true ->
         BookDetail.hooks (BookDetail.effectSettled r s)
         = BookDetail.hooks s).
Proof.
  repeat split.
  - intros r s Hc.
    rewrite (popular_effect_discards_after_cleanup r s Hc). reflexivity.
  - intros r s Hc. apply detail_effect_discards_after_cleanup, Hc.
Qed.

Lemma cancelled_effect_changes_nothing_witness :
  let s := BookDetail.unmount
             (BookDetail.mount
                (Types.mkBookDetailParams (Some "zyTCAlFPjgYC")
                                          None None None None None)) in
  BookDetail.hooks
    (BookDetail.effectSettled
       (inr {| BookDetail.book := VObject [("id", VString "zyTCAlFPjgYC")];
               BookDetail.error := None |}) s)
  = BookDetail.hooks s.
Proof.
  intros s.
  apply (proj2 (proj2 (proj2 cancelled_effect_changes_nothing))).
  reflexivity.
Defined.

(** ** The Detail screen *)



(** X14.  The Detail screen makes a lookup only when it has an
    identifier and neither a title nor a thumbnail parameter.  Without an
    identifier it shows "Invalid book"; with a title or a thumbnail
    parameter it shows the content from the parameters.  In both cases
    mounting starts no lookup, the "Try again" action does nothing, and
    what is shown does not depend on the state cells. *)
Theorem detail_lookup_only_when_needed (params : Types.BookDetailParams) :
  BookDetail.hasId params = false \/ BookDetail.hasParams params = true ->
  BookDetail.inFlight (BookDetail.mount params) = 0
  /\ BookDetail.loading (BookDetail.hooks (BookDetail.mount params)) = false
  /\ (forall s, BookDetail.loadBook params s = s)
  /\ (forall h,
         DetailView.screen params h
         = if BookDetail.hasId params then DetailView.Content
           else DetailView.InvalidBook).
Proof.
  intros Hcase. unfold BookDetail.mount, BookDetail.loadBook,
                  DetailView.screen.
  destruct (BookDetail.hasId params); cbn.
  - destruct Hcase as [Hcase | Hcase]; [discriminate Hcase |].
    rewrite Hcase. cbn. repeat split.
    intros h. destruct (BookDetail.fetchError h); reflexivity.
  - repeat split.
Qed.

Lemma detail_lookup_only_when_needed_witness :
  let params :=
    Types.mkBookDetailParams (Some "zyTCAlFPjgYC") (Some "Dune") None None
                             None None in
  BookDetail.inFlight (BookDetail.mount params) = 0.
Proof.
  intros params.
  apply (detail_lookup_only_when_needed params).
  right. reflexivity.
Defined.

(** ** The texts of a book *)

Lemma string_app_assoc (a b c : string) : (a ++ b) ++ c = a ++ b ++ c.
Proof.
  induction a as [| x a IH]; [reflexivity |].
  cbn. rewrite IH. reflexivity.
Qed.

Lemma string_app_nil (a : string) : a ++ "" = a.
Proof.
  induction a as [| x a IH]; [reflexivity |].
  cbn. rewrite IH. reflexivity.
Qed.

Lemma truthy_neq (s : string) : truthy s = true <-> s <> "".
Proof.
  destruct s; cbn; split; intros H; try reflexivity; try discriminate.
  contradiction.
Qed.

(** X15.  The author line.  Without an [authors] parameter the Detail
    screen shows what the search row shows, except for an empty line:
    where the row shows nothing after "by" (a book with an empty author
    list), the Detail screen shows "Unknown".  A book without [authors]
    is "Unknown" on both, and the book card shows the same joined names
    as the row. *)
Theorem author_lines_agree (b : Types.Book) :
  (forall params,
      Types.p_authors params = None ->
      DetailView.authors params (Some b)
      = if truthy (SearchView.rowAuthors b) then SearchView.rowAuthors b
        else "Unknown")
  /\ (Types.authors (Types.volumeInfo b) = None ->
      SearchView.rowAuthors b = "Unknown")
  /\ (Types.authors (Types.volumeInfo b) = Some [] ->
      SearchView.rowAuthors b = "")
  /\ (forall line,
         BookCard.authorsText b = Some line ->
         SearchView.rowAuthors b = line).
Proof.
  unfold DetailView.authors, SearchView.rowAuthors, BookCard.authorsText,
    DetailView.info.
  cbn [option_map].
  destruct (Types.authors (Types.volumeInfo b)) as [names |].
  - repeat split.
    + intros params ->. reflexivity.
    + discriminate.
    + intros H. injection H as ->. reflexivity.
    + intros line H. injection H as <-. reflexivity.
  - repeat split.
    + intros params ->. reflexivity.
    + discriminate.
    + discriminate.
Qed.

Lemma author_lines_agree_witness :
  let b := Types.mkBook "1" (Types.mkBookVolumeInfo "Test Book" (Some [])
                                                    None None) in
  DetailView.authors
    (Types.mkBookDetailParams (Some "1") None None None None None) (Some b)
  = "Unknown".
Proof.
  intros b.
  apply (proj1 (author_lines_agree b)
               (Types.mkBookDetailParams (Some "1") None None None None None)).
  reflexivity.
Defined.

(** X16.  The Detail screen never shows an empty title or an empty
    description, and without an [authors] parameter never an empty author
    line; the description shown neither starts nor ends with white
    space. *)
Theorem detail_texts_never_empty
        (params : Types.BookDetailParams) (fetched : option Types.Book) :
  DetailView.shownTitle params fetched <> ""
  /\ DetailView.cleanDescription params fetched <> ""
  /\ notWhite (firstUnit (DetailView.cleanDescription params fetched))
  /\ notWhite (lastUnit (DetailView.cleanDescription params fetched))
  /\ (Types.p_authors params = None ->
      DetailView.authors params fetched <> "").
Proof.
  repeat split.
  - unfold DetailView.shownTitle.
    destruct (truthy (DetailView.title params fetched)) eqn:Ht.
    + apply truthy_neq, Ht.
    + discriminate.
  - unfold DetailView.cleanDescription.
    destruct (DetailView.description params fetched) as [d |];
      [| discriminate].
    destruct (truthy (trim (DetailView.stripTags d))) eqn:Ht;
      [apply truthy_neq, Ht | discriminate].
  - unfold DetailView.cleanDescription.
    destruct (DetailView.description params fetched) as [d |];
      [| reflexivity].
    destruct (truthy (trim (DetailView.stripTags d)));
      [apply trim_clean | reflexivity].
  - unfold DetailView.cleanDescription.
    destruct (DetailView.description params fetched) as [d |];
      [| reflexivity].
    destruct (truthy (trim (DetailView.stripTags d)));
      [apply trim_clean | reflexivity].
  - intros Hp. unfold DetailView.authors. rewrite Hp.
    destruct (DetailView.info fetched) as [i |]; [| discriminate].
    destruct (Types.authors i) as [names |]; [| discriminate].
    destruct (truthy (SearchView.join names ", ")) eqn:Ht;
      [apply truthy_neq, Ht | discriminate].
Qed.

Lemma detail_texts_never_empty_witness :
  DetailView.authors
    (Types.mkBookDetailParams (Some "1") None None None None None)
    (Some (Types.mkBook "1" (Types.mkBookVolumeInfo "" (Some [""]) (Some "<p> </p>") None)))
  <> "".
Proof.
  apply (detail_texts_never_empty
           (Types.mkBookDetailParams (Some "1") None None None None None)).
  reflexivity.
Defined.

(** *** Stripping the tags of a description *)

Lemma stripFrom_flush (w : string) :
  mentions ">" w = false ->
  forall seen, DetailView.stripFrom (Some seen) w = seen ++ w.
Proof.
  induction w as [| c w IH]; intros Hw seen.
  - cbn. rewrite string_app_nil. reflexivity.
  - cbn [mentions] in Hw. apply orb_false_iff in Hw. destruct Hw as [Hc Hw].
    cbn [DetailView.stripFrom]. rewrite Hc, (IH Hw).
    rewrite string_app_assoc. reflexivity.
Qed.

Lemma stripFrom_close (t b : string) :
  mentions ">" t = false ->
  forall seen,
    DetailView.stripFrom (Some seen) (t ++ ">" ++ b)
    = if String.eqb (seen ++ t) "<"
      then "<>" ++ DetailView.stripFrom None b
      else DetailView.stripFrom None b.
Proof.
  induction t as [| c t IH]; intros Ht seen.
  - cbn. rewrite string_app_nil. reflexivity.
  - cbn [mentions] in Ht. apply orb_false_iff in Ht. destruct Ht as [Hc Ht].
    cbn [append DetailView.stripFrom]. rewrite Hc, (IH Ht).
    rewrite string_app_assoc. reflexivity.
Qed.

Lemma stripFrom_outside (a r : string) :
  mentions "<" a = false ->
  DetailView.stripFrom None (a ++ r) = a ++ DetailView.stripFrom None r.
Proof.
  induction a as [| c a IH]; intros Ha; [reflexivity |].
  cbn [mentions] in Ha. apply orb_false_iff in Ha. destruct Ha as [Hc Ha].
  cbn [append DetailView.stripFrom]. rewrite Hc, (IH Ha). reflexivity.
Qed.

Lemma stripFrom_open (r : string) :
  DetailView.stripFrom None ("<" ++ r) = DetailView.stripFrom (Some "<") r.
Proof. reflexivity. Qed.

Lemma stripFrom_empty_pair (r : string) :
  DetailView.stripFrom None ("<>" ++ r) = "<>" ++ DetailView.stripFrom None r.
Proof. reflexivity. Qed.

(** X17.  What [replace(/<[^>]+>/g, '')] does to a description.  Text
    before the first [<] stays.  Then: a [<] with text up to the next [>]
    is dropped together with that text and the [>]; the pair [<>] stays;
    a [<] that no [>] follows stays with all the text after it.  So a
    text without [<] is unchanged. *)
Theorem stripTags_equations (a : string) :
  mentions "<" a = false ->
  DetailView.stripTags a = a
  /\ (forall t b,
         t <> "" -> mentions ">" t = false ->
         DetailView.stripTags (a ++ "<" ++ t ++ ">" ++ b)
         = a ++ DetailView.stripTags b)
  /\ (forall b,
         DetailView.stripTags (a ++ "<>" ++ b)
         = a ++ "<>" ++ DetailView.stripTags b)
  /\ (forall r,
         mentions ">" r = false ->
         DetailView.stripTags (a ++ "<" ++ r) = a ++ "<" ++ r).
Proof.
  intros Ha. unfold DetailView.stripTags. repeat split.
  - pose proof (stripFrom_outside a "" Ha) as H.
    rewrite string_app_nil in H. cbn in H. rewrite string_app_nil in H.
    exact H.
  - intros t b Hne Ht. rewrite (stripFrom_outside a _ Ha).
    rewrite stripFrom_open, (stripFrom_close t b Ht "<").
    destruct t as [| c t]; [contradiction |].
    destruct t; reflexivity.
  - intros b. rewrite (stripFrom_outside a _ Ha), stripFrom_empty_pair.
    reflexivity.
  - intros r Hr. rewrite (stripFrom_outside a _ Ha).
    rewrite stripFrom_open, (stripFrom_flush r Hr). reflexivity.
Qed.

Lemma stripTags_equations_witness :
  DetailView.stripTags "Paul Atreides <b>and</b> the spice"
  = "Paul Atreides " ++ DetailView.stripTags "and</b> the spice".
Proof.
  apply (proj1 (proj2 (stripTags_equations "Paul Atreides " eq_refl))
               "b" "and</b> the spice").
  - discriminate.
  - reflexivity.
Defined.

Lemma openTag_snoc (seen : string) (c : ascii) :
  openTag seen = true -> Ascii.eqb c ">" = false ->
  openTag (seen ++ String c EmptyString) = true.
Proof.
  destruct seen as [| x w]; [discriminate |].
  cbn [openTag append]. intros H Hc.
  apply andb_prop in H. destruct H as [Hx Hw]. rewrite Hx. cbn [andb].
  apply negb_true_iff in Hw. apply negb_true_iff.
  induction w as [| y w IH]; cbn [append mentions] in *.
  - rewrite Hc. reflexivity.
  - apply orb_false_iff in Hw. destruct Hw as [Hy Hw].
    rewrite Hy, (IH Hw). reflexivity.
Qed.

Lemma strip_openTag (seen : string) :
  openTag seen = true -> DetailView.stripFrom None seen = seen.
Proof.
  destruct seen as [| x w]; [discriminate |].
  cbn [openTag]. intros H. apply andb_prop in H. destruct H as [Hx Hw].
  apply negb_true_iff in Hw. cbn [DetailView.stripFrom]. rewrite Hx.
  rewrite (stripFrom_flush w Hw).
  apply Ascii.eqb_eq in Hx. subst x. reflexivity.
Qed.

Lemma stripFrom_idempotent (s : string) :
  DetailView.stripFrom None (DetailView.stripFrom None s)
  = DetailView.stripFrom None s
  /\ forall seen,
      openTag seen = true ->
      DetailView.stripFrom None (DetailView.stripFrom (Some seen) s)
      = DetailView.stripFrom (Some seen) s.
Proof.
  induction s as [| c s [IHn IHo]].
  - split; [reflexivity |]. intros seen Hs. cbn. apply strip_openTag, Hs.
  - split.
    + cbn [DetailView.stripFrom].
      destruct (Ascii.eqb c "<") eqn:Hc.
      * apply IHo. reflexivity.
      * cbn [DetailView.stripFrom]. rewrite Hc, IHn. reflexivity.
    + intros seen Hs. cbn [DetailView.stripFrom].
      destruct (Ascii.eqb c ">") eqn:Hc.
      * destruct (String.eqb seen "<"); [| exact IHn].
        rewrite stripFrom_empty_pair, IHn. reflexivity.
      * apply IHo, openTag_snoc; assumption.
Qed.

(** X18.  Stripping the tags twice gives what stripping them once
    gives: no tag is left, or newly formed, in a stripped description. *)
Theorem stripTags_idempotent (s : string) :
  DetailView.stripTags (DetailView.stripTags s) = DetailView.stripTags s.
Proof. apply stripFrom_idempotent. Qed.

(** ** The star row *)

Lemma filled_at_most_5 (rating : option Q) : (SearchView.filled rating <= 5)%Z.
Proof.
  unfold SearchView.filled. destruct rating; lia.
Qed.

Lemma stars_of_filled (f : Z) :
  (f <= 5)%Z ->
  map (fun i => Z.ltb (Z.of_nat i) f) (seq 0 5)
  = (repeat true (Z.to_nat f) ++ repeat false (5 - Z.to_nat f))%list.
Proof.
  intros Hf. destruct f as [| p | p]; try reflexivity.
  assert (Hp : (p = 1 \/ p = 2 \/ p = 3 \/ p = 4 \/ p = 5)%positive) by lia.
  destruct Hp as [-> | [-> | [-> | [-> | ->]]]]; reflexivity.
Qed.

(** X19.  The star row always has five icons: first the filled ones,
    then the outlined ones, never mixed.  The number of filled ones is
    the rating rounded to the nearest integer (a half rounds up), kept
    between 0 and 5: none for a missing rating and for a rating below
    one half, all five from four and a half on. *)
Theorem star_row_shape (rating : option Q) :
  List.length (SearchView.StarRating rating) = 5
  /\ SearchView.StarRating rating
     = (repeat true (Z.to_nat (SearchView.filled rating))
          ++ repeat false (5 - Z.to_nat (SearchView.filled rating)))%list
  /\ Z.to_nat (SearchView.filled rating) <= 5
  /\ (rating = None -> SearchView.StarRating rating = repeat false 5)
  /\ (forall r, rating = Some r -> (r < 1 # 2)%Q ->
                SearchView.StarRating rating = repeat false 5)
  /\ (forall r, rating = Some r -> (9 # 2 <= r)%Q ->
                SearchView.StarRating rating = repeat true 5).
Proof.
  pose proof (filled_at_most_5 rating) as H5.
  pose proof (stars_of_filled (SearchView.filled rating) H5) as Hshape.
  fold (SearchView.StarRating rating) in Hshape.
  split; [reflexivity |]. split; [exact Hshape |].
  split; [lia |]. split; [| split].
  - intros ->. reflexivity.
  - intros r -> Hr. rewrite Hshape.
    assert (Hf : (SearchView.filled (Some r) <= 0)%Z).
    { unfold SearchView.filled, SearchView.round.
      assert (Hlt : (Qfloor (r + (1 # 2)) < 1)%Z).
      { rewrite Zlt_Qlt.
        apply Qle_lt_trans with (r + (1 # 2))%Q; [apply Qfloor_le |].
        apply Qlt_le_trans with ((1 # 2) + (1 # 2))%Q;
          [| compute; discriminate].
        apply Qplus_lt_le_compat; [exact Hr | apply Qle_refl]. }
      lia. }
    destruct (SearchView.filled (Some r)) as [| p | p];
      try reflexivity; lia.
  - intros r -> Hr. rewrite Hshape.
    assert (Hf : SearchView.filled (Some r) = 5%Z).
    { unfold SearchView.filled, SearchView.round.
      assert (Hge : (5 <= Qfloor (r + (1 # 2)))%Z).
      { rewrite <- (Qfloor_Z 5). apply Qfloor_resp_le.
        apply Qle_trans with ((9 # 2) + (1 # 2))%Q;
          [compute; discriminate |].
        apply Qplus_le_compat; [exact Hr | apply Qle_refl]. }
      lia. }
    rewrite Hf. reflexivity.
Qed.

Lemma star_row_shape_witness :
  SearchView.StarRating (Some (9 # 2)%Q) = repeat true 5.
Proof.
  apply (proj2 (proj2 (proj2 (proj2 (proj2
           (star_row_shape (Some (9 # 2)%Q)))))) (9 # 2)%Q).
  - reflexivity.
  - compute. discriminate.
Defined.

(** ** More on the cover URL *)

Lemma prefix_nil (s : string) : String.prefix "" s = true.
Proof. destruct s; reflexivity. Qed.

Lemma replace_absent (s pattern replacement : string) :
  includes s pattern = false ->
  replace s pattern replacement = s.
Proof.
  induction s as [| c s IH]; cbn [includes replace]; intros H;
    apply orb_false_iff in H; destruct H as [Hp Hs]; rewrite Hp.
  - reflexivity.
  - rewrite (IH Hs). reflexivity.
Qed.

Lemma prefix_app_long (p a x : string) :
  String.length p <= String.length a ->
  String.prefix p (a ++ x) = String.prefix p a.
Proof.
  revert a. induction p as [| c p IH]; intros a Hlen.
  - rewrite !prefix_nil. reflexivity.
  - destruct a as [| d a]; [cbn in Hlen; lia |].
    cbn [append String.prefix]. cbn in Hlen.
    destruct (ascii_dec c d); [apply IH; lia | reflexivity].
Qed.

Lemma app_cons (c : ascii) (a b : string) :
  String c a ++ b = String c (a ++ b).
Proof. reflexivity. Qed.

Lemma replace_cons (c : ascii) (s pattern replacement : string) :
  String.prefix pattern (String c s) = false ->
  replace (String c s) pattern replacement
  = String c (replace s pattern replacement).
Proof. intros H. cbn [replace]. rewrite H. reflexivity. Qed.

Lemma replace_here (s pattern replacement : string) :
  String.prefix pattern s = true ->
  replace s pattern replacement
  = replacement ++ skip (String.length pattern) s.
Proof. intros H. destruct s; cbn [replace]; rewrite H; reflexivity. Qed.

Lemma replace_first_occurrence (pre post : string) :
  includes (pre ++ "http:/") "http://" = false ->
  replace (pre ++ "http://" ++ post) "http://" "https://"
  = pre ++ "https://" ++ post.
Proof.
  induction pre as [| c pre IH]; intros H.
  - change ("" ++ "http://" ++ post) with ("http://" ++ post).
    rewrite replace_here; [reflexivity |].
    change ("http://" ++ post) with ("http://" ++ "" ++ post).
    rewrite <- string_app_assoc, prefix_app_long; [reflexivity |].
    cbn. lia.
  - rewrite (app_cons c pre "http:/") in H.
    cbn [includes] in H. apply orb_false_iff in H.
    destruct H as [Hp Hrest].
    rewrite (app_cons c pre ("http://" ++ post)),
      (app_cons c pre ("https://" ++ post)).
    rewrite replace_cons; [rewrite (IH Hrest); reflexivity |].
    assert (E : String c (pre ++ "http://" ++ post)
                = String c (pre ++ "http:/") ++ "/" ++ post).
    { rewrite (app_cons c (pre ++ "http:/") ("/" ++ post)).
      rewrite (string_app_assoc pre "http:/" ("/" ++ post)). reflexivity. }
    rewrite E, prefix_app_long; [exact Hp |].
    clear. induction pre as [| d pre IH]; cbn in *; lia.
Qed.

Lemma replace_truthy (s pattern replacement : string) :
  truthy s = true -> truthy replacement = true ->
  truthy (replace s pattern replacement) = true.
Proof.
  destruct s as [| c s]; [discriminate |]. intros _ Hr.
  cbn [replace]. destruct (String.prefix pattern (String c s));
    [| reflexivity].
  destruct replacement; [discriminate | reflexivity].
Qed.

(** X20.  A link without any [http://] in it (an [https://] link, say)
    reaches the image as it is, on the search row and on the Detail
    screen. *)
Theorem secure_link_untouched (b : Types.Book)
        (links : Types.BookImageLinks) (u : string) :
  Types.imageLinks (Types.volumeInfo b) = Some links ->
  Types.thumbnail links = Some u ->
  u <> "" ->
  includes u "http://" = false ->
  Search.rowCover b = Search.CoverImage u
  /\ (forall params,
         Types.p_thumbnail params = None ->
         BookDetail.cover params (Some b) = Search.CoverImage u).
Proof.
  intros Hl Ht Hne Hinc. apply truthy_neq in Hne.
  pose proof (replace_absent u "http://" "https://" Hinc) as Hr. split.
  - unfold Search.rowCover, Search.rowThumbnail, Search.orElse,
      Search.upgradeScheme, Search.linkOf.
    rewrite Hl, Ht. cbn [option_map truthyOpt]. rewrite Hr, Hne, Hne.
    reflexivity.
  - intros params Hp.
    unfold BookDetail.cover, BookDetail.imageUrl, BookDetail.thumbnail,
      BookDetail.infoLink.
    rewrite Hp, Hl, Ht. cbn [option_map BookDetail.orNullish].
    rewrite Hr, Hne. reflexivity.
Qed.

Lemma secure_link_untouched_witness :
  let links := Types.mkBookImageLinks
                 (Some "https://example.com/thumbnail.jpg")
                 None None None None in
  let b := Types.mkBook "1" (Types.mkBookVolumeInfo "Test Book" None None
                                                    (Some links)) in
  Search.rowCover b = Search.CoverImage "https://example.com/thumbnail.jpg".
Proof.
  intros links b.
  apply (secure_link_untouched b links "https://example.com/thumbnail.jpg");
    try reflexivity.
  discriminate.
Defined.

(** X21.  The scheme is replaced where [http://] first occurs, which
    need not be the start of the link: a [thumbnail] that holds its first
    [http://] after some other text (an [https://] address that carries
    an [http://] address as a parameter, say) reaches the image with that
    inner occurrence rewritten, and with nothing else changed. *)
Theorem inner_scheme_rewritten (b : Types.Book)
        (links : Types.BookImageLinks) (pre post : string) :
  Types.imageLinks (Types.volumeInfo b) = Some links ->
  Types.thumbnail links = Some (pre ++ "http://" ++ post) ->
  includes (pre ++ "http:/") "http://" = false ->
  Search.rowCover b = Search.CoverImage (pre ++ "https://" ++ post)
  /\ (forall params,
         Types.p_thumbnail params = None ->
         BookDetail.cover params (Some b)
         = Search.CoverImage (pre ++ "https://" ++ post)).
Proof.
  intros Hl Ht Hinc.
  pose proof (replace_first_occurrence pre post Hinc) as Hr.
  assert (Htr : truthy (pre ++ "https://" ++ post) = true).
  { destruct pre; reflexivity. }
  split.
  - unfold Search.rowCover, Search.rowThumbnail, Search.orElse,
      Search.upgradeScheme, Search.linkOf.
    rewrite Hl, Ht. cbn [option_map truthyOpt]. rewrite Hr, Htr, Htr.
    reflexivity.
  - intros params Hp.
    unfold BookDetail.cover, BookDetail.imageUrl, BookDetail.thumbnail,
      BookDetail.infoLink.
    rewrite Hp, Hl, Ht. cbn [option_map BookDetail.orNullish].
    rewrite Hr, Htr. reflexivity.
Qed.

Lemma inner_scheme_rewritten_witness :
  let links := Types.mkBookImageLinks
                 (Some "https://proxy.example/?u=http://books.example/1.jpg")
                 None None None None in
  let b := Types.mkBook "1" (Types.mkBookVolumeInfo "Test Book" None None
                                                    (Some links)) in
  Search.rowCover b
  = Search.CoverImage "https://proxy.example/?u=https://books.example/1.jpg".
Proof.
  intros links b.
  apply (inner_scheme_rewritten b links "https://proxy.example/?u="
                                "books.example/1.jpg"); reflexivity.
Defined.

(** X22.  Where the two screens differ on the cover.  For a book that
    has neither [thumbnail] nor [smallThumbnail] but a [small], [medium]
    or [large] link, the search row shows the placeholder while the
    Detail screen shows the image of the first of these links.  A
    [thumbnail] parameter of the Detail screen goes before every link of
    the fetched book. *)
Theorem cover_fallbacks (links : Types.BookImageLinks) (u : string) :
  Types.thumbnail links = None ->
  Types.smallThumbnail links = None ->
  BookDetail.orNullish
    (BookDetail.orNullish (Types.small links) (Types.medium links))
    (Types.large links) = Some u ->
  u <> "" ->
  (forall b,
      Types.imageLinks (Types.volumeInfo b) = Some links ->
      Search.rowCover b = Search.CoverPlaceholder
      /\ (forall params,
             Types.p_thumbnail params = None ->
             BookDetail.cover params (Some b)
             = Search.CoverImage (replace u "http://" "https://")))
  /\ (forall params fetched v,
         Types.p_thumbnail params = Some v -> v <> "" ->
         BookDetail.cover params fetched
         = Search.CoverImage (replace v "http://" "https://")).
Proof.
  intros Ht Hs Hu Hne. apply truthy_neq in Hne. split.
  - intros b Hl. split.
    + unfold Search.rowCover, Search.rowThumbnail, Search.orElse,
        Search.upgradeScheme, Search.linkOf.
      rewrite Hl, Ht, Hs. reflexivity.
    + intros params Hp.
      unfold BookDetail.cover, BookDetail.imageUrl, BookDetail.thumbnail,
        BookDetail.infoLink.
      rewrite Hp, Hl, Ht, Hs. cbn [BookDetail.orNullish].
      rewrite Hu. cbn [option_map].
      rewrite (replace_truthy u "http://" "https://" Hne eq_refl).
      reflexivity.
  - intros params fetched v Hp Hv. apply truthy_neq in Hv.
    unfold BookDetail.cover, BookDetail.imageUrl, BookDetail.thumbnail.
    rewrite Hp. cbn [BookDetail.orNullish option_map].
    rewrite (replace_truthy v "http://" "https://" Hv eq_refl).
    reflexivity.
Qed.

Lemma cover_fallbacks_witness :
  let links := Types.mkBookImageLinks
                 None None None None (Some "http://books.example/large.jpg") in
  let b := Types.mkBook "1" (Types.mkBookVolumeInfo "Test Book" None None
                                                    (Some links)) in
  Search.rowCover b = Search.CoverPlaceholder.
Proof.
  intros links b.
  apply (proj1 (cover_fallbacks links "http://books.example/large.jpg"
                                eq_refl eq_refl eq_refl
                                ltac:(discriminate)) b).
  reflexivity.
Defined.

(** ** The retry of a search and the pending timeout *)

(** X23.  "Try again" on the search error sends the query again: when
    the screen shows the error of a failed search, pressing the button
    issues one search call for the text that is in the input, clears the
    error and brings the loader back. *)
Theorem retry_resends_current_query
        (key : option string) (s : SearchScreen.State) (message : string) :
  SearchScreen.mounted s = true ->
  SearchView.body (SearchScreen.hooks s) = SearchView.SearchError message ->
  let s' := SearchScreen.pressRetry key s in
  SearchScreen.calls s'
  = (SearchScreen.calls s
       ++ [SearchScreen.mkCall
             (SearchScreen.now s)
             (SearchScreen.query (SearchScreen.hooks s))
             (Search.searchRequest
                key (SearchScreen.query (SearchScreen.hooks s)))])%list
  /\ SearchScreen.errorSearch (SearchScreen.hooks s') = None
  /\ SearchView.body (SearchScreen.hooks s') = SearchView.Loader.
Proof.
  destruct s as [[q b pb l lp ep es] m t c n cs p].
  cbn [SearchScreen.mounted SearchScreen.hooks SearchScreen.query
       SearchScreen.now SearchScreen.calls].
  intros -> Hbody. cbv zeta. unfold SearchView.body in Hbody. cbn in Hbody.
  destruct l; [discriminate Hbody |].
  destruct (truthy (trim q)) eqn:Hq.
  2:{ destruct lp; [discriminate Hbody |].
      destruct ep as [e |]; [destruct (truthy e) |]; discriminate Hbody. }
  destruct (SearchScreen.isEmptyList b) eqn:Hb; [| discriminate Hbody].
  destruct es as [e |]; [| discriminate Hbody].
  destruct (truthy e) eqn:He; [| discriminate Hbody].
  unfold SearchScreen.pressRetry.
  cbn [SearchScreen.mounted SearchScreen.hooks SearchScreen.loading
       SearchScreen.query SearchScreen.books SearchScreen.errorSearch
       truthyOpt negb andb].
  rewrite Hq, Hb, He. cbn [andb].
  rewrite fetchBooks_mounted. repeat split.
Qed.

Lemma retry_resends_current_query_witness :
  let s := SearchScreen.fetchBooksSettled
             0 (inl (networkError "Failed to fetch"))
             (SearchScreen.run None
                [SearchScreen.ChangeText "dune"; SearchScreen.Elapse 400]
                (SearchScreen.mount 0)) in
  SearchView.body (SearchScreen.hooks (SearchScreen.pressRetry None s))
  = SearchView.Loader.
Proof.
  intros s.
  apply (retry_resends_current_query
           None s
           "Unable to connect. Check your internet connection and try again.");
    reflexivity.
Defined.

Lemma step_timerCurrent key s e :
  timerCurrent s -> timerCurrent (SearchScreen.step key s e).
Proof.
  destruct s as [h m t c n cs p].
  destruct e as [text | dt | id answer | r | |]; cbn [SearchScreen.step].
  - unfold SearchScreen.changeText.
    cbn [SearchScreen.mounted SearchScreen.hooks].
    destruct m; cbn [negb]; [| trivial].
    destruct (String.eqb text (SearchScreen.query h)) eqn:Hne; [trivial |].
    intros _.
    pose proof (changeText_mounted text h t c n cs p Hne) as E.
    unfold SearchScreen.changeText in E.
    cbn [SearchScreen.mounted SearchScreen.hooks negb] in E.
    rewrite Hne in E. rewrite E.
    destruct (negb (truthy (trim text))) eqn:Hb; [exact I |].
    unfold timerCurrent. cbn. unfold blank. rewrite Hb.
    repeat split; lia.
  - unfold timerCurrent at 1. cbn [SearchScreen.timer].
    destruct t as [[due q] |]; [| intros _; exact I].
    cbn [SearchScreen.mounted SearchScreen.hooks SearchScreen.now].
    intros (-> & Hq & Hb & Hdue).
    destruct (Nat.leb due (n + dt)) eqn:Hd.
    + rewrite (elapse_due key dt h due q c n cs p Hd). exact I.
    + rewrite (elapse_early key dt h true due q c n cs p Hd).
      apply Nat.leb_gt in Hd.
      unfold timerCurrent. cbn. repeat split; try assumption; lia.
  - unfold SearchScreen.fetchBooksSettled. cbn [SearchScreen.pending].
    destruct (negb (existsb (Nat.eqb id) p)); [trivial |].
    unfold timerCurrent, SearchScreen.set.
    destruct (Search.readItems answer); destruct m; cbn; trivial.
  - unfold SearchScreen.popularSettled, SearchScreen.set, timerCurrent.
    destruct r, c, m; cbn; trivial.
  - unfold SearchScreen.pressRetry.
    match goal with |- context [if ?g then _ else _] => destruct g end;
      [| trivial].
    unfold timerCurrent, SearchScreen.fetchBooks, SearchScreen.set.
    destruct m; cbn; trivial.
  - intros _. exact I.
Qed.

(** X24.  The debounce never holds a stale text: in every state the
    screen can reach, a pending timeout belongs to a mounted screen, was
    set for the text that is in the input now, which is not blank, and
    falls due within the next 400 time units.  So the search that the
    debounce starts is always for the text the user sees. *)
Theorem pending_timeout_is_current
        (key : option string) (t0 : nat) (events : list SearchScreen.Event)
        (due : nat) (q : string) :
  let s := SearchScreen.run key events (SearchScreen.mount t0) in
  SearchScreen.timer s = Some (due, q) ->
  SearchScreen.mounted s = true
  /\ q = SearchScreen.query (SearchScreen.hooks s)
  /\ blank q = false
  /\ SearchScreen.now s < due <= SearchScreen.now s + 400.
Proof.
  cbv zeta.
  assert (H : forall s, timerCurrent s ->
                        timerCurrent (SearchScreen.run key events s)).
  { induction events as [| e events IH]; intros s Hs; [exact Hs |].
    cbn [SearchScreen.run fold_left]. apply IH, step_timerCurrent, Hs. }
  specialize (H (SearchScreen.mount t0) I). unfold timerCurrent in H.
  intros Ht. rewrite Ht in H. exact H.
Qed.

Lemma pending_timeout_is_current_witness :
  let s := SearchScreen.run None
             [SearchScreen.ChangeText "du"; SearchScreen.Elapse 150;
              SearchScreen.ChangeText "dune"; SearchScreen.Elapse 399]
             (SearchScreen.mount 0) in
  "dune" = SearchScreen.query (SearchScreen.hooks s).
Proof.
  intros s.
  apply (pending_timeout_is_current
           None 0
           [SearchScreen.ChangeText "du"; SearchScreen.Elapse 150;
            SearchScreen.ChangeText "dune"; SearchScreen.Elapse 399]
           550 "dune").
  reflexivity.
Defined.
